(** * ESP32-CAM live view with TFT display: model of the frame pipeline

    A shallow embedding of [ESP32Cam_TFTDisplay.ino]: the button interrupt
    handler, the still capture routine [capturePhoto], the part of [setup]
    that fixes the initial globals and the sensor profile, and the main
    [loop] (frame acquisition, JPEG tile assembly, display push, FPS window).

    The sketch's globals become the record [State]; the calls into the camera,
    display, SD and JPEG libraries become events of a trace, and the answers
    of those libraries (a frame or NULL, a file handle or none, the decoded
    tiles, the clock) are supplied by an environment record per invocation. *)

From Stdlib Require Import ZArith List Bool String Lia.
From Stdlib Require Import DecimalString DecimalN DecimalPos.
Import ListNotations.
Open Scope Z_scope.

(** ** Machine integers of the ESP32 (ILP32) *)

Module Int.

(** [uint16_t] *)
Definition u16 (z : Z) : Z := z mod 2 ^ 16.
(** [uint32_t], [unsigned long] *)
Definition u32 (z : Z) : Z := z mod 2 ^ 32.
(** [int16_t] *)
Definition s16 (z : Z) : Z := (z + 2 ^ 15) mod 2 ^ 16 - 2 ^ 15.
(** [int], [int32_t] (two's complement wrap-around) *)
Definition s32 (z : Z) : Z := (z + 2 ^ 31) mod 2 ^ 32 - 2 ^ 31.

Definition in_s16 (z : Z) : Prop := - 2 ^ 15 <= z < 2 ^ 15.

End Int.
Import Int.

(** ** Data of the libraries the sketch talks to *)

(** [framesize_t] of esp_camera, the two values the sketch uses. *)
Inductive framesize_t := FRAMESIZE_QVGA | FRAMESIZE_VGA.

(** A sensor profile: resolution class and JPEG quality level. *)
Record SensorProfile := mkProfile {
  prof_framesize : framesize_t;
  prof_quality : Z
}.

(** [camera_fb_t]: the compressed frame handed out by the driver's pool. *)
Record camera_fb := mkFb {
  fb_buf : list Z;
  fb_len : Z
}.

(** One decoded MCU as [JpegDec.read()] exposes it. *)
Record Tile := mkTile {
  MCUx : Z;
  MCUy : Z;
  MCUWidth : Z;
  MCUHeight : Z;
  pImage : list Z
}.

(** What [JpegDec.decodeArray] exposes on success: the picture's dimensions
    and the MCUs that successive [JpegDec.read()] calls deliver. *)
Record JpegImage := mkJpeg {
  jpeg_width : Z;
  jpeg_height : Z;
  jpeg_mcus : list Tile
}.

(** RGB565 colours of the UI. *)
Inductive color :=
| TFT_WHITE
| TFT_YELLOW
| Color565 (r g b : Z).

Definition uiBackgroundColor : color := Color565 15 15 25.
Definition uiBorderColor : color := Color565 60 120 200.
Definition uiTextColor : color := TFT_WHITE.
Definition uiSuccessColor : color := Color565 0 200 100.
Definition uiErrorColor : color := Color565 255 80 80.

(** [currentFPS = (frameCount * 1000.0) / elapsed]: the two operands of the
    floating-point division, both exactly representable.  A zero
    denominator stands for the IEEE quotient +inf. *)
Record fps_sample := mkFps {
  fps_num : Z;
  fps_den : Z
}.

(** [currentFPS >= k] for an integer threshold [k]: rounding the quotient to
    [float] is monotone and fixes the integer [k], so the test on the exact
    quotient decides it. *)
Definition fps_ge (f : fps_sample) (k : Z) : bool :=
  if fps_den f =? 0 then 0 <? fps_num f else k * fps_den f <=? fps_num f.

(** The pixel data a [tft.pushImage] call reads. *)
Inductive PixelSource :=
| SrcDisplayBuffer (mem : Z -> Z)
| SrcMCU (img : list Z).

(** ** Calls into the libraries, as a trace *)

Inductive Event :=
| TftFillRoundRect (x y w h r : Z) (c : color)
| TftDrawRoundRect (x y w h r : Z) (c : color)
| TftSetTextColor (fg bg : color)
| TftSetTextSize (n : Z)
| TftSetCursor (x y : Z)
| TftPrintln (s : string)
| TftPrintfImage (n : Z)
| TftPrintfFps (f : fps_sample)
| TftPushImage (x y w h : Z) (data : PixelSource)
| Delay (ms : Z)
| SensorSetFramesize (fs : framesize_t)
| SensorSetQuality (q : Z)
| FbGet (r : option camera_fb)
| FbReturn (fb : camera_fb)
| SdOpen (path : string) (ok : bool)
| FileWrite (buf : list Z) (len : Z) (written : Z)
| FileClose
| MemcpyPixels (dst : Z) (src : list Z) (n : Z).

(** ** The sketch's globals and the peripherals' state *)

Record State := mkState {
  (* OPTIMIZED BUFFERS: pixel memory indexed from [displayBuffer] *)
  displayBuffer : Z -> Z;
  bufferReady : bool;
  (* FPS TRACKING *)
  frameCount : Z;
  fpsTimer : Z;
  currentFPS : fps_sample;
  lastFPSUpdate : Z;
  (* CAPTURE VARIABLES *)
  captureRequested : bool;
  lastButtonPress : Z;
  photoCount : Z;
  sdCardAvailable : bool;
  (* the sensor's profile and the display's geometry *)
  sensor : SensorProfile;
  tft_width : Z;
  tft_height : Z
}.

Definition debounceDelay : Z := 200.

Definition set_displayBuffer (m : Z -> Z) (st : State) : State :=
  mkState m (bufferReady st) (frameCount st) (fpsTimer st) (currentFPS st)
    (lastFPSUpdate st) (captureRequested st) (lastButtonPress st)
    (photoCount st) (sdCardAvailable st) (sensor st) (tft_width st)
    (tft_height st).

Definition set_frameCount (n : Z) (st : State) : State :=
  mkState (displayBuffer st) (bufferReady st) n (fpsTimer st) (currentFPS st)
    (lastFPSUpdate st) (captureRequested st) (lastButtonPress st)
    (photoCount st) (sdCardAvailable st) (sensor st) (tft_width st)
    (tft_height st).

Definition set_fpsTimer (t : Z) (st : State) : State :=
  mkState (displayBuffer st) (bufferReady st) (frameCount st) t (currentFPS st)
    (lastFPSUpdate st) (captureRequested st) (lastButtonPress st)
    (photoCount st) (sdCardAvailable st) (sensor st) (tft_width st)
    (tft_height st).

Definition set_currentFPS (f : fps_sample) (st : State) : State :=
  mkState (displayBuffer st) (bufferReady st) (frameCount st) (fpsTimer st) f
    (lastFPSUpdate st) (captureRequested st) (lastButtonPress st)
    (photoCount st) (sdCardAvailable st) (sensor st) (tft_width st)
    (tft_height st).

Definition set_captureRequested (b : bool) (st : State) : State :=
  mkState (displayBuffer st) (bufferReady st) (frameCount st) (fpsTimer st)
    (currentFPS st) (lastFPSUpdate st) b (lastButtonPress st)
    (photoCount st) (sdCardAvailable st) (sensor st) (tft_width st)
    (tft_height st).

Definition set_lastButtonPress (t : Z) (st : State) : State :=
  mkState (displayBuffer st) (bufferReady st) (frameCount st) (fpsTimer st)
    (currentFPS st) (lastFPSUpdate st) (captureRequested st) t
    (photoCount st) (sdCardAvailable st) (sensor st) (tft_width st)
    (tft_height st).

Definition set_photoCount (n : Z) (st : State) : State :=
  mkState (displayBuffer st) (bufferReady st) (frameCount st) (fpsTimer st)
    (currentFPS st) (lastFPSUpdate st) (captureRequested st)
    (lastButtonPress st) n (sdCardAvailable st) (sensor st) (tft_width st)
    (tft_height st).

Definition set_sensor (p : SensorProfile) (st : State) : State :=
  mkState (displayBuffer st) (bufferReady st) (frameCount st) (fpsTimer st)
    (currentFPS st) (lastFPSUpdate st) (captureRequested st)
    (lastButtonPress st) (photoCount st) (sdCardAvailable st) p (tft_width st)
    (tft_height st).

(** ** A state and trace monad for the sketch's procedures *)

Definition M (A : Type) : Type := State -> A * State * list Event.

Definition ret {A} (a : A) : M A := fun st => (a, st, []).

Definition result {A} (r : A * State * list Event) : A := fst (fst r).
Definition final {A} (r : A * State * list Event) : State := snd (fst r).
Definition trace {A} (r : A * State * list Event) : list Event := snd r.

Definition bind {A B} (m : M A) (k : A -> M B) : M B :=
  fun st =>
    let '(a, st1, tr1) := m st in
    let '(b, st2, tr2) := k a st1 in
    (b, st2, tr1 ++ tr2).

Definition get : M State := fun st => (st, st, []).
Definition modify (f : State -> State) : M unit := fun st => (tt, f st, []).
Definition emit (e : Event) : M unit := fun st => (tt, st, [e]).
Definition emits (l : list Event) : M unit := fun st => (tt, st, l).

Declare Scope sketch_scope.
Delimit Scope sketch_scope with sketch.
Notation "x <- m ;; k" := (bind m (fun x => k))
  (at level 61, m at next level, right associativity) : sketch_scope.
Notation "m ;; k" := (bind m (fun _ => k))
  (at level 61, right associativity) : sketch_scope.
Open Scope sketch_scope.

(** [millis()] at true time [t] (milliseconds since boot). *)
Definition millis (t : Z) : Z := u32 t.

(** ** INTERRUPT HANDLER *)

(** The test of the handler: [currentTime - lastButtonPress > debounceDelay]
    on [unsigned long]. *)
Definition debounce_elapsed (st : State) (currentTime : Z) : bool :=
  debounceDelay <? u32 (currentTime - lastButtonPress st).

(** [buttonPressed], entered at true time [t]. *)
Definition buttonPressed (t : Z) : M unit :=
  let currentTime := millis t in
  st <- get ;;
  if debounce_elapsed st currentTime then
    modify (set_captureRequested true) ;;
    modify (set_lastButtonPress currentTime)
  else ret tt.

(** ** Camera driver calls *)

Definition set_framesize (fs : framesize_t) : M unit :=
  modify (fun st => set_sensor (mkProfile fs (prof_quality (sensor st))) st) ;;
  emit (SensorSetFramesize fs).

Definition set_quality (q : Z) : M unit :=
  modify (fun st => set_sensor (mkProfile (prof_framesize (sensor st)) q) st) ;;
  emit (SensorSetQuality q).

Definition esp_camera_fb_get (r : option camera_fb) : M (option camera_fb) :=
  emit (FbGet r) ;; ret r.

Definition esp_camera_fb_return (fb : camera_fb) : M unit :=
  emit (FbReturn fb).

(** ** PHOTO CAPTURE *)

(** The answers [capturePhoto] gets from its collaborators: whether
    [esp_camera_sensor_get()] yields a handle, what [esp_camera_fb_get()]
    returns, the time of its [millis()] call, whether [SD.open] yields a
    file, and the byte count [file.write] reports. *)
Record CaptureEnv := mkCaptureEnv {
  ce_sensor : bool;
  ce_fb : option camera_fb;
  ce_time : Z;
  ce_file : bool;
  ce_written : Z
}.

(** [String(n)] for an unsigned number. *)
Definition String_of (n : Z) : string :=
  NilZero.string_of_uint (N.to_uint (Z.to_N n)).

Definition photo_filename (t : Z) : string :=
  ("/photos/IMG_" ++ String_of (millis t) ++ ".jpg")%string.

Definition capturePhoto (env : CaptureEnv) : M bool :=
  st <- get ;;
  if negb (sdCardAvailable st) then
    (* Show error message *)
    emits [ TftFillRoundRect 50 100 220 40 8 uiErrorColor;
            TftSetTextColor TFT_WHITE uiErrorColor;
            TftSetTextSize 1;
            TftSetCursor 85 115;
            TftPrintln "NO SD CARD DETECTED";
            Delay 1500 ] ;;
    ret false
  else
    (* Show capturing indicator *)
    emits [ TftFillRoundRect 80 100 160 40 8 uiBackgroundColor;
            TftDrawRoundRect 80 100 160 40 8 uiBorderColor;
            TftSetTextColor uiTextColor uiBackgroundColor;
            TftSetTextSize 1;
            TftSetCursor 125 115;
            TftPrintln "CAPTURING..." ] ;;
    (* Switch to higher quality temporarily *)
    let s := ce_sensor env in
    (if s then
       set_framesize FRAMESIZE_VGA ;;
       set_quality 4 ;;
       emit (Delay 100)
     else ret tt) ;;
    fb <- esp_camera_fb_get (ce_fb env) ;;
    match fb with
    | None =>
        (if s then
           set_framesize FRAMESIZE_QVGA ;;
           set_quality 8
         else ret tt) ;;
        ret false
    | Some fb =>
        modify (fun st => set_photoCount (s32 (photoCount st + 1)) st) ;;
        let filename := photo_filename (ce_time env) in
        emit (SdOpen filename (ce_file env)) ;;
        (if ce_file env then
           emits [ FileWrite (fb_buf fb) (fb_len fb) (ce_written env); FileClose ] ;;
           (* Modern success notification *)
           st <- get ;;
           emits [ TftFillRoundRect 60 90 200 60 10 uiSuccessColor;
                   TftSetTextColor TFT_WHITE uiSuccessColor;
                   TftSetTextSize 1;
                   TftSetCursor 85 105;
                   TftPrintln "PHOTO SAVED!";
                   TftSetCursor 105 120;
                   TftPrintfImage (photoCount st);
                   TftSetTextSize 2;
                   TftSetCursor 130 130;
                   TftPrintln "✓";
                   Delay 1000 ]
         else ret tt) ;;
        esp_camera_fb_return fb ;;
        (if s then
           set_framesize FRAMESIZE_QVGA ;;
           set_quality 8
         else ret tt) ;;
        ret true
    end.

(** ** FRAME ASSEMBLY *)

(** [memcpy(&pBuf[dst], src, n * 2)] on 16-bit pixels: [n] pixels go to the
    indices [dst .. dst + n - 1] of the pixel memory.  The memory is indexed
    by all of [Z], so a copy that left the allocated block would show. *)
Definition memcpy (mem : Z -> Z) (dst : Z) (src : list Z) (n : Z) : Z -> Z :=
  fun i =>
    if (dst <=? i) && (i <? dst + n)
    then nth (Z.to_nat (i - dst)) src 0
    else mem i.

(** [uint16_t mcuPixels = JpegDec.MCUWidth * JpegDec.MCUHeight]. *)
Definition mcuPixels_of (t : Tile) : Z :=
  u16 (s32 (MCUWidth t * MCUHeight t)).

(** The body of the buffered loop for one MCU; [bufIndex] is the [uint16_t]
    local.  It returns the pixel memory, the new [bufIndex] and the [memcpy]
    call it made, if any. *)
Definition store_mcu (t : Tile) (pBuf : Z -> Z) (bufIndex : Z)
  : (Z -> Z) * Z * list Event :=
  let pImg := pImage t in
  let mcuPixels := mcuPixels_of t in
  (* Fast memcpy to buffer *)
  if bufIndex + mcuPixels <=? 320 * 240 then
    (memcpy pBuf bufIndex pImg mcuPixels,
     u16 (bufIndex + mcuPixels),
     [MemcpyPixels bufIndex pImg mcuPixels])
  else
    (pBuf, bufIndex, []).

(** The buffered loop [while (JpegDec.read()) { ... }] over the MCUs the
    decoder delivers. *)
Fixpoint read_buffered (mcus : list Tile) (pBuf : Z -> Z) (bufIndex : Z)
  : (Z -> Z) * Z * list Event :=
  match mcus with
  | [] => (pBuf, bufIndex, [])
  | t :: rest =>
      let r1 := store_mcu t pBuf bufIndex in
      let r2 := read_buffered rest (fst (fst r1)) (snd (fst r1)) in
      (fst (fst r2), snd (fst r2), snd r1 ++ snd r2)
  end.

(** The direct rendering loop: one [tft.pushImage] per MCU. *)
Definition push_mcu (x y : Z) (t : Tile) : Event :=
  TftPushImage (s32 (s32 (MCUx t * MCUWidth t) + x))
               (s32 (s32 (MCUy t * MCUHeight t) + y))
               (MCUWidth t) (MCUHeight t) (SrcMCU (pImage t)).

Definition read_direct (mcus : list Tile) (x y : Z) : list Event :=
  map (push_mcu x y) mcus.

(** ** FPS CALCULATION *)

(** The badge drawn every 30 frames. *)
Definition fps_badge (fps : fps_sample) : list Event :=
  [ TftFillRoundRect 5 5 90 35 6 uiBackgroundColor;
    TftDrawRoundRect 5 5 90 35 6 uiBorderColor;
    TftDrawRoundRect 6 6 88 33 5 (Color565 40 80 120);
    TftSetTextColor uiTextColor uiBackgroundColor;
    TftSetTextSize 1;
    TftSetCursor 12 12;
    TftPrintln "FPS";
    TftSetTextSize 2;
    TftSetCursor 12 22;
    TftSetTextColor
      (if fps_ge fps 15 then uiSuccessColor
       else if fps_ge fps 10 then TFT_YELLOW
       else uiErrorColor) uiBackgroundColor;
    TftPrintfFps fps;
    TftSetTextSize 1;
    TftSetTextColor uiTextColor uiBackgroundColor;
    TftSetCursor 68 28;
    TftPrintln
      (if fps_ge fps 15 then "●"
       else if fps_ge fps 10 then "◐"
       else "○")%string ].

(** [frameCount++; if (frameCount >= 30) { ... }], with the times of the two
    [millis()] calls of the block. *)
Definition fps_tick (t1 t2 : Z) : M unit :=
  modify (fun st => set_frameCount (u32 (frameCount st + 1)) st) ;;
  st <- get ;;
  if 30 <=? frameCount st then
    let elapsed := u32 (millis t1 - fpsTimer st) in
    let fps := mkFps (frameCount st * 1000) elapsed in
    modify (set_currentFPS fps) ;;
    emits (fps_badge fps) ;;
    (* Reset counters *)
    modify (set_frameCount 0) ;;
    modify (set_fpsTimer (millis t2))
  else ret tt.

(** ** MAIN LOOP *)

(** The answers one pass of [loop] gets: those of an embedded [capturePhoto],
    the frame [esp_camera_fb_get()] returns, the outcome of
    [JpegDec.decodeArray], and the times of the two [millis()] calls. *)
Record LoopEnv := mkLoopEnv {
  le_capture : CaptureEnv;
  le_fb : option camera_fb;
  le_jpeg : option JpegImage;
  le_time1 : Z;
  le_time2 : Z
}.

(** Center image on display. *)
Definition center (extent size : Z) : Z := s16 (Z.quot (extent - size) 2).

(** The body of [if (JpegDec.decodeArray(fb->buf, fb->len)) { ... }]. *)
Definition show_frame (img : JpegImage) (t1 t2 : Z) : M unit :=
  st <- get ;;
  let w := u16 (jpeg_width img) in
  let h := u16 (jpeg_height img) in
  let x := center (tft_width st) w in
  let y := center (tft_height st) h in
  (if bufferReady st then
     (* FAST BUFFER DECODE *)
     let pBuf := displayBuffer st in
     let bufIndex := 0 in
     let r := read_buffered (jpeg_mcus img) pBuf bufIndex in
     let mem := fst (fst r) in
     emits (snd r) ;;
     modify (set_displayBuffer mem) ;;
     (* INSTANT DISPLAY UPDATE *)
     emit (TftPushImage x y w h (SrcDisplayBuffer mem))
   else
     (* Direct rendering fallback *)
     emits (read_direct (jpeg_mcus img) x y)) ;;
  fps_tick t1 t2.

(** Handle capture request: the test-and-clear of the flag at the head of
    [loop]; the result of [capturePhoto] is dropped. *)
Definition handle_capture (env : CaptureEnv) : M unit :=
  st <- get ;;
  if captureRequested st then
    modify (set_captureRequested false) ;;
    _ <- capturePhoto env ;;
    ret tt
  else ret tt.

Definition loop (env : LoopEnv) : M unit :=
  handle_capture (le_capture env) ;;
  (* Get frame *)
  fb <- esp_camera_fb_get (le_fb env) ;;
  match fb with
  | None => ret tt
  | Some fb =>
      match le_jpeg env with
      | Some img => show_frame img (le_time1 env) (le_time2 env)
      | None => ret tt
      end ;;
      (* Return frame buffer immediately *)
      esp_camera_fb_return fb
  end.

(** ** SETUP *)

(** The answers [setup] gets: [SD.begin], [esp_camera_init],
    [esp_camera_sensor_get], [malloc], the display's geometry after
    [tft.setRotation(0)], the memory [malloc] returns, the time of the final
    [millis()] call. *)
Record SetupEnv := mkSetupEnv {
  se_sd_begin : bool;
  se_camera_init : bool;
  se_sensor : bool;
  se_malloc : bool;
  se_tft_width : Z;
  se_tft_height : Z;
  se_heap : Z -> Z;
  se_time : Z
}.

(** The globals as declared, with the display's geometry and the profile
    that [esp_camera_init] programs from [config.frame_size] and
    [config.jpeg_quality]. *)
Definition globals (env : SetupEnv) : State :=
  {| displayBuffer := se_heap env;
     bufferReady := false;
     frameCount := 0;
     fpsTimer := 0;
     currentFPS := mkFps 0 1;
     lastFPSUpdate := 0;
     captureRequested := false;
     lastButtonPress := 0;
     photoCount := 0;
     sdCardAvailable := false;
     sensor := mkProfile FRAMESIZE_QVGA 8;
     tft_width := se_tft_width env;
     tft_height := se_tft_height env |}.

Definition set_sdCardAvailable (b : bool) (st : State) : State :=
  mkState (displayBuffer st) (bufferReady st) (frameCount st) (fpsTimer st)
    (currentFPS st) (lastFPSUpdate st) (captureRequested st)
    (lastButtonPress st) (photoCount st) b (sensor st) (tft_width st)
    (tft_height st).

Definition set_bufferReady (b : bool) (st : State) : State :=
  mkState (displayBuffer st) b (frameCount st) (fpsTimer st)
    (currentFPS st) (lastFPSUpdate st) (captureRequested st)
    (lastButtonPress st) (photoCount st) (sdCardAvailable st) (sensor st)
    (tft_width st) (tft_height st).

(** The state [setup] leaves, or [None] when the camera fails to initialise
    and [setup] halts in [while (true) delay(1000)].  The boot screens are
    left out of the trace. *)
Definition setup (env : SetupEnv) : option State :=
  let st := globals env in
  (* initSDCard *)
  let st := if se_sd_begin env then set_sdCardAvailable true st else st in
  if negb (se_camera_init env) then None
  else
    (* SENSOR OPTIMIZATION FOR SPEED *)
    let st :=
      if se_sensor env then
        final ((set_framesize FRAMESIZE_QVGA ;; set_quality 6) st)
      else st in
    (* Allocate display buffer *)
    let st := if se_malloc env then set_bufferReady true st else st in
    Some (set_fpsTimer (millis (se_time env)) st).

(** ** The running system: button interrupts and passes of [loop] *)

Inductive Input :=
| Button (t : Z)
| LoopPass (env : LoopEnv).

Definition step (i : Input) : M unit :=
  match i with
  | Button t => buttonPressed t
  | LoopPass env => loop env
  end.

Fixpoint run (inputs : list Input) : M unit :=
  match inputs with
  | [] => ret tt
  | i :: rest => step i ;; run rest
  end.

(** ** Observations on traces and runs *)

Definition camera_fb_eq_dec (a b : camera_fb) : {a = b} + {a <> b}.
Proof.
  decide equality; [apply Z.eq_dec | apply (list_eq_dec Z.eq_dec)].
Defined.

(** The driver's pool seen from the sketch: [held] is the frame the sketch
    currently borrows.  A trace is followed from [held]; it is refused
    ([None]) when a frame is acquired while one is still held, or when a
    frame is returned that is not the one held. *)
Fixpoint pool_run (held : option camera_fb) (tr : list Event)
  : option (option camera_fb) :=
  match tr with
  | [] => Some held
  | FbGet r :: rest =>
      match held with
      | Some _ => None
      | None => pool_run r rest
      end
  | FbReturn fb :: rest =>
      match held with
      | Some fb' => if camera_fb_eq_dec fb fb' then pool_run None rest else None
      | None => None
      end
  | _ :: rest => pool_run held rest
  end.

Definition pool_neutral (e : Event) : bool :=
  match e with
  | FbGet _ | FbReturn _ => false
  | _ => true
  end.

(** Events that reconfigure the sensor or touch the frame pool. *)
Definition touches_camera (e : Event) : bool :=
  match e with
  | SensorSetFramesize _ | SensorSetQuality _ | FbGet _ | FbReturn _ => true
  | _ => false
  end.

(** Events the user can see: everything drawn on the display.  (The sketch
    logs nothing outside [setup].) *)
Definition user_visible (e : Event) : bool :=
  match e with
  | TftFillRoundRect _ _ _ _ _ _ | TftDrawRoundRect _ _ _ _ _ _
  | TftPrintln _ | TftPrintfImage _ | TftPrintfFps _
  | TftPushImage _ _ _ _ _ => true
  | _ => false
  end.

(** What follows the [SD.open] call in a trace. *)
Fixpoint after_open (tr : list Event) : list Event :=
  match tr with
  | [] => []
  | SdOpen _ _ :: rest => rest
  | _ :: rest => after_open rest
  end.

(** The FPS samples a trace prints. *)
Fixpoint fps_samples (tr : list Event) : list fps_sample :=
  match tr with
  | [] => []
  | TftPrintfFps f :: rest => f :: fps_samples rest
  | _ :: rest => fps_samples rest
  end.

(** The [tft.pushImage] calls of a trace. *)
Definition is_push (e : Event) : bool :=
  match e with
  | TftPushImage _ _ _ _ _ => true
  | _ => false
  end.

Definition pushes (tr : list Event) : list Event := filter is_push tr.

(** The [memcpy] calls of a trace, as (destination index, pixel count). *)
Fixpoint memcpys (tr : list Event) : list (Z * Z) :=
  match tr with
  | [] => []
  | MemcpyPixels dst _ n :: rest => (dst, n) :: memcpys rest
  | _ :: rest => memcpys rest
  end.

(** A [memcpy] call stays inside the 320 * 240 pixels of the buffer. *)
Definition within_buffer (e : Event) : Prop :=
  match e with
  | MemcpyPixels dst _ n => 0 <= dst /\ 0 <= n /\ dst + n <= 320 * 240
  | _ => True
  end.

(** The times of the button interrupts of a run, in order. *)
Fixpoint button_times (inputs : list Input) : list Z :=
  match inputs with
  | [] => []
  | Button t :: rest => t :: button_times rest
  | LoopPass _ :: rest => button_times rest
  end.

(** The clock does not run backwards: each time is at least the previous. *)
Fixpoint clock_monotone (t0 : Z) (ts : list Z) : Prop :=
  match ts with
  | [] => True
  | t :: rest => t0 <= t /\ clock_monotone t rest
  end.

(** The times of the presses the handler accepted during a run: those at
    which it took the branch that sets the flag and the timestamp. *)
Fixpoint accepted_presses (inputs : list Input) (st : State) : list Z :=
  match inputs with
  | [] => []
  | i :: rest =>
      let st' := final (step i st) in
      match i with
      | Button t =>
          if debounce_elapsed st (millis t)
          then t :: accepted_presses rest st'
          else accepted_presses rest st'
      | LoopPass _ => accepted_presses rest st'
      end
  end.

(** Membership in the closed window [a, a + 200] of 200 ms. *)
Definition in_window (a t : Z) : bool := (a <=? t) && (t <=? a + debounceDelay).

(** Consecutive times lie more than the debounce delay apart. *)
Fixpoint spaced (t0 : Z) (ts : list Z) : Prop :=
  match ts with
  | [] => True
  | t :: rest => t0 + debounceDelay < t /\ spaced t rest
  end.

(** The same environment with another answer of [file.write]. *)
Definition with_written (n : Z) (env : CaptureEnv) : CaptureEnv :=
  mkCaptureEnv (ce_sensor env) (ce_fb env) (ce_time env) (ce_file env) n.

(** The pixels a stream of MCUs delivers, and the (offset, count) pairs of
    copies placed at the accumulated pixel counts from [offset] on. *)
Fixpoint total_pixels (mcus : list Tile) : Z :=
  match mcus with
  | [] => 0
  | t :: rest => mcuPixels_of t + total_pixels rest
  end.

Fixpoint accumulated_offsets (offset : Z) (mcus : list Tile) : list (Z * Z) :=
  match mcus with
  | [] => []
  | t :: rest =>
      (offset, mcuPixels_of t) ::
      accumulated_offsets (offset + mcuPixels_of t) rest
  end.

(** ** Concrete scenarios *)

Module Scenario.

(** A boot with SD card, camera, sensor handle and display buffer, on a
    320 x 240 display. *)
Definition boot : SetupEnv :=
  {| se_sd_begin := true; se_camera_init := true; se_sensor := true;
     se_malloc := true; se_tft_width := 320; se_tft_height := 240;
     se_heap := fun _ => -1; se_time := 2500 |}.

Definition ready : State :=
  match setup boot with
  | Some st => st
  | None => globals boot
  end.

Definition no_card : State := set_sdCardAvailable false ready.

Definition frame : camera_fb := mkFb [255; 216; 255; 217] 4.

(** A capture that succeeds in every step. *)
Definition capture_ok : CaptureEnv :=
  {| ce_sensor := true; ce_fb := Some frame; ce_time := 5000;
     ce_file := true; ce_written := 4 |}.

(** A capture whose [SD.open] yields no file. *)
Definition capture_open_fails : CaptureEnv :=
  {| ce_sensor := true; ce_fb := Some frame; ce_time := 5000;
     ce_file := false; ce_written := 0 |}.

(** A capture whose [file.write] writes nothing. *)
Definition capture_write_fails : CaptureEnv :=
  {| ce_sensor := true; ce_fb := Some frame; ce_time := 5000;
     ce_file := true; ce_written := 0 |}.

(** A capture whose frame acquisition fails. *)
Definition capture_no_frame : CaptureEnv :=
  {| ce_sensor := true; ce_fb := None; ce_time := 5000;
     ce_file := true; ce_written := 0 |}.

(** The MCU at grid position ([k] mod 20, [k] / 20) of a QVGA picture
    compressed in YUV422: 16 x 8 pixels, here all of the value [k]. *)
Definition mcu (k : nat) : Tile :=
  {| MCUx := Z.of_nat k mod 20; MCUy := Z.of_nat k / 20;
     MCUWidth := 16; MCUHeight := 8;
     pImage := repeat (Z.of_nat k) 128 |}.

(** A whole QVGA picture: 20 x 30 = 600 MCUs, 76800 pixels. *)
Definition qvga : JpegImage :=
  {| jpeg_width := 320; jpeg_height := 240;
     jpeg_mcus := map mcu (seq 0 600) |}.

(** A small picture of 2 x 2 MCUs. *)
Definition small : JpegImage :=
  {| jpeg_width := 32; jpeg_height := 16;
     jpeg_mcus :=
       [ mkTile 0 0 16 8 (repeat 1 128); mkTile 1 0 16 8 (repeat 2 128);
         mkTile 0 1 16 8 (repeat 3 128); mkTile 1 1 16 8 (repeat 4 128) ] |}.

Definition pass (img : JpegImage) : LoopEnv :=
  {| le_capture := capture_ok; le_fb := Some frame; le_jpeg := Some img;
     le_time1 := 4500; le_time2 := 4510 |}.

End Scenario.

(** ** Further observations *)

(** Calls to the SD library made during a capture. *)
Definition is_storage (e : Event) : bool :=
  match e with
  | SdOpen _ _ | FileWrite _ _ _ | FileClose => true
  | _ => false
  end.

Definition is_open (e : Event) : bool :=
  match e with
  | SdOpen _ _ => true
  | _ => false
  end.

(** The number of [SD.open] calls of a trace: the captures that reached the
    file. *)
Definition opens (tr : list Event) : nat := List.length (filter is_open tr).

(** The number of passes of [loop] in a run. *)
Fixpoint loop_passes (inputs : list Input) : nat :=
  match inputs with
  | [] => 0%nat
  | Button _ :: rest => loop_passes rest
  | LoopPass _ :: rest => S (loop_passes rest)
  end.

(** The number of passes of a run that acquire a frame and decode it. *)
Fixpoint decoded_passes (inputs : list Input) : nat :=
  match inputs with
  | [] => 0%nat
  | Button _ :: rest => decoded_passes rest
  | LoopPass env :: rest =>
      match le_fb env, le_jpeg env with
      | Some _, Some _ => S (decoded_passes rest)
      | _, _ => decoded_passes rest
      end
  end.

(** The pixels the buffered loop reads from one MCU, and from a stream of
    MCUs in the order of delivery. *)
Definition tile_pixels (t : Tile) : list Z :=
  map (fun j => nth j (pImage t) 0) (seq 0 (Z.to_nat (mcuPixels_of t))).

Fixpoint stream_pixels (mcus : list Tile) : list Z :=
  match mcus with
  | [] => []
  | t :: rest => tile_pixels t ++ stream_pixels rest
  end.

(** ** FAST SD CARD INIT *)






(** * Properties *)

(** ** Unfolding the monad *)

Ltac run_sketch :=
  unfold capturePhoto, buttonPressed, set_framesize, set_quality,
    esp_camera_fb_get, esp_camera_fb_return, bind, ret, get, modify, emit,
    emits, result, final, trace;
  cbn.

(** Case analysis on what [capturePhoto] branches on, then evaluation. *)
Ltac capture_cases env st :=
  let sd := fresh "sd" in
  let s := fresh "s" in
  let fb := fresh "fb" in
  let file := fresh "file" in
  destruct st as [? ? ? ? ? ? ? ? ? sd ? ? ?];
  destruct env as [s [fb|] ? file ?];
  destruct sd, s, file;
  run_sketch.

Ltac same_frame :=
  match goal with
  | |- context [camera_fb_eq_dec ?a ?a] =>
      destruct (camera_fb_eq_dec a a); [| congruence]
  end.

Lemma trace_bind {A B} (m : M A) (k : A -> M B) (st : State) :
  trace (bind m k st) = trace (m st) ++ trace (k (result (m st)) (final (m st))).
Proof.
  unfold bind. destruct (m st) as [[a st1] tr1]. cbn.
  destruct (k a st1) as [[b st2] tr2]. reflexivity.
Qed.

Lemma final_bind {A B} (m : M A) (k : A -> M B) (st : State) :
  final (bind m k st) = final (k (result (m st)) (final (m st))).
Proof.
  unfold bind. destruct (m st) as [[a st1] tr1]. cbn.
  destruct (k a st1) as [[b st2] tr2]. reflexivity.
Qed.

Lemma result_bind {A B} (m : M A) (k : A -> M B) (st : State) :
  result (bind m k st) = result (k (result (m st)) (final (m st))).
Proof.
  unfold bind. destruct (m st) as [[a st1] tr1]. cbn.
  destruct (k a st1) as [[b st2] tr2]. reflexivity.
Qed.

(** Splits a concrete trace before its last [k] events. *)
Ltac trace_tail k :=
  match goal with
  | |- exists pre q, ?l = _ =>
      exists (firstn (List.length l - k) l), 8; reflexivity
  end.

(** ** Still capture *)

Section Capture.

Variable env : CaptureEnv.
Variable st : State.

(** The profile [capturePhoto] leaves: untouched without a card or a
    sensor handle, QVGA at quality 8 otherwise, whether or not a frame
    was acquired. *)
Lemma capturePhoto_sensor :
  sensor (final (capturePhoto env st)) =
    if sdCardAvailable st && ce_sensor env
    then mkProfile FRAMESIZE_QVGA 8
    else sensor st.
Proof.
  capture_cases env st; reflexivity.
Qed.

(** Apart from the sensor profile and [photoCount], [capturePhoto]
    changes no global. *)
Lemma capturePhoto_frame :
  let st' := final (capturePhoto env st) in
  displayBuffer st' = displayBuffer st /\
  bufferReady st' = bufferReady st /\
  frameCount st' = frameCount st /\
  fpsTimer st' = fpsTimer st /\
  currentFPS st' = currentFPS st /\
  captureRequested st' = captureRequested st /\
  lastButtonPress st' = lastButtonPress st /\
  sdCardAvailable st' = sdCardAvailable st /\
  tft_width st' = tft_width st /\
  tft_height st' = tft_height st.
Proof.
  capture_cases env st; repeat split; reflexivity.
Qed.

Lemma capturePhoto_pool :
  pool_run None (trace (capturePhoto env st)) = Some None.
Proof.
  capture_cases env st; try same_frame; reflexivity.
Qed.

Lemma capturePhoto_no_memcpy_push_fps :
  Forall within_buffer (trace (capturePhoto env st)) /\
  pushes (trace (capturePhoto env st)) = [] /\
  fps_samples (trace (capturePhoto env st)) = [].
Proof.
  capture_cases env st; repeat split; repeat constructor.
Qed.

End Capture.

(** C10.  [capturePhoto] returns [true] exactly when storage is available
    and the frame acquisition yields a frame, whatever [SD.open] and
    [file.write] answer; it returns [false] exactly when storage is
    unavailable or the acquisition fails. *)
Theorem capturePhoto_result (env : CaptureEnv) (st : State) :
  result (capturePhoto env st) =
    sdCardAvailable st &&
    match ce_fb env with Some _ => true | None => false end.
Proof.
  capture_cases env st; reflexivity.
Qed.

(** C8.  Without storage, [capturePhoto] draws the error banner and returns
    [false]: the trace is the banner and its delay, no event reconfigures
    the sensor or acquires a frame, and no global changes, the sensor
    profile and [photoCount] included. *)
Theorem capturePhoto_no_card (env : CaptureEnv) (st : State) :
  sdCardAvailable st = false ->
  let r := capturePhoto env st in
  result r = false /\
  trace r = [ TftFillRoundRect 50 100 220 40 8 uiErrorColor;
              TftSetTextColor TFT_WHITE uiErrorColor;
              TftSetTextSize 1;
              TftSetCursor 85 115;
              TftPrintln "NO SD CARD DETECTED";
              Delay 1500 ] /\
  existsb touches_camera (trace r) = false /\
  final r = st /\
  sensor (final r) = sensor st /\
  photoCount (final r) = photoCount st.
Proof.
  intros Hsd. capture_cases env st; try discriminate Hsd;
    repeat split; reflexivity.
Qed.

Lemma capturePhoto_no_card_witness :
  sdCardAvailable Scenario.no_card = false /\
  trace (capturePhoto Scenario.capture_ok Scenario.no_card) =
    [ TftFillRoundRect 50 100 220 40 8 uiErrorColor;
      TftSetTextColor TFT_WHITE uiErrorColor;
      TftSetTextSize 1;
      TftSetCursor 85 115;
      TftPrintln "NO SD CARD DETECTED";
      Delay 1500 ].
Proof.
  split; [reflexivity |].
  apply (capturePhoto_no_card Scenario.capture_ok Scenario.no_card).
  reflexivity.
Defined.

(** C7 as stated fails: after a failed [SD.open] no display call follows;
    the trace ends with the frame's return and the two sensor calls. *)
Lemma capturePhoto_open_failure_silent :
  let r := capturePhoto Scenario.capture_open_fails Scenario.ready in
  sdCardAvailable Scenario.ready = true /\
  ce_fb Scenario.capture_open_fails = Some Scenario.frame /\
  ce_file Scenario.capture_open_fails = false /\
  after_open (trace r) =
    [ FbReturn Scenario.frame;
      SensorSetFramesize FRAMESIZE_QVGA; SensorSetQuality 8 ] /\
  ~ (exists e, In e (after_open (trace r)) /\ user_visible e = true).
Proof.
  cbv zeta. repeat split.
  intros [e [Hin Hvis]]. vm_compute in Hin.
  destruct Hin as [<- | [<- | [<- | []]]]; discriminate.
Qed.

(** C7, amended.  With storage available and a frame acquired:
    after a failed [SD.open] nothing is drawn; the answer of [file.write]
    is never looked at, so the display shows the same whatever was written;
    and in every case the trace ends with the frame's return followed, when
    a sensor handle is available, by the calls that set the frame size back
    to QVGA and set a quality. *)
Theorem capturePhoto_write_failure
    (env : CaptureEnv) (st : State) (fb : camera_fb) (n : Z) :
  sdCardAvailable st = true ->
  ce_fb env = Some fb ->
  let r := capturePhoto env st in
  (ce_file env = false ->
     existsb user_visible (after_open (trace r)) = false) /\
  filter user_visible (trace (capturePhoto (with_written n env) st)) =
    filter user_visible (trace r) /\
  (exists pre q,
     trace r = pre ++ FbReturn fb ::
       (if ce_sensor env
        then [SensorSetFramesize FRAMESIZE_QVGA; SensorSetQuality q]
        else [])) /\
  (ce_sensor env = true ->
     prof_framesize (sensor (final r)) = FRAMESIZE_QVGA).
Proof.
  intros Hsd Hfb. cbv zeta.
  capture_cases env st; try discriminate Hsd; try discriminate Hfb;
    cbn in Hfb; injection Hfb as <-;
    (split; [intros Hf; (discriminate Hf || reflexivity) |]);
    (split; [reflexivity |]);
    (split; [first [trace_tail 3%nat | trace_tail 1%nat] |]);
    intros Hs; (discriminate Hs || reflexivity).
Qed.

Lemma capturePhoto_write_failure_witness :
  let r := capturePhoto Scenario.capture_open_fails Scenario.ready in
  existsb user_visible (after_open (trace r)) = false /\
  filter user_visible
    (trace (capturePhoto Scenario.capture_write_fails Scenario.ready)) =
  filter user_visible
    (trace (capturePhoto Scenario.capture_ok Scenario.ready)) /\
  prof_framesize (sensor (final r)) = FRAMESIZE_QVGA.
Proof.
  cbv zeta.
  pose proof (capturePhoto_write_failure Scenario.capture_open_fails
                Scenario.ready Scenario.frame 0 eq_refl eq_refl) as H.
  pose proof (capturePhoto_write_failure Scenario.capture_ok
                Scenario.ready Scenario.frame 0 eq_refl eq_refl) as G.
  cbv zeta in H, G.
  destruct H as (H1 & _ & _ & H4). destruct G as (_ & G2 & _).
  split; [apply H1; reflexivity |].
  split; [exact G2 | apply H4; reflexivity].
Defined.

(** C1, evaluated on the code.  [setup] leaves the profile QVGA at quality 6;
    after a capture, successful or not once the card is present, the profile
    is QVGA at quality 8, and this is the profile of the live-view
    acquisitions that follow. *)
Theorem capturePhoto_leaves_quality_8 :
  setup Scenario.boot = Some Scenario.ready /\
  sensor Scenario.ready = mkProfile FRAMESIZE_QVGA 6 /\
  sensor (final (capturePhoto Scenario.capture_ok Scenario.ready)) =
    mkProfile FRAMESIZE_QVGA 8 /\
  sensor (final (capturePhoto Scenario.capture_no_frame Scenario.ready)) =
    mkProfile FRAMESIZE_QVGA 8 /\
  sensor (final (capturePhoto Scenario.capture_open_fails Scenario.ready)) =
    mkProfile FRAMESIZE_QVGA 8 /\
  sensor (final (capturePhoto Scenario.capture_ok Scenario.no_card)) =
    mkProfile FRAMESIZE_QVGA 6 /\
  sensor (final (run [Button 3000; LoopPass (Scenario.pass Scenario.small)]
                   Scenario.ready)) =
    mkProfile FRAMESIZE_QVGA 8.
Proof. repeat split. Qed.

(** ** Frame assembly *)

Lemma mcuPixels_of_range (t : Tile) : 0 <= mcuPixels_of t < 2 ^ 16.
Proof. unfold mcuPixels_of, u16. apply Z.mod_pos_bound. lia. Qed.

Lemma u16_range (z : Z) : 0 <= u16 z < 2 ^ 16.
Proof. unfold u16. apply Z.mod_pos_bound. lia. Qed.

Lemma memcpy_outside (mem : Z -> Z) (dst : Z) (src : list Z) (n i : Z) :
  i < dst \/ dst + n <= i -> memcpy mem dst src n i = mem i.
Proof.
  intros H. unfold memcpy.
  destruct (dst <=? i) eqn:E1; [| reflexivity].
  destruct (i <? dst + n) eqn:E2; [| reflexivity].
  apply Z.leb_le in E1. apply Z.ltb_lt in E2. lia.
Qed.

Lemma memcpy_inside (mem : Z -> Z) (dst : Z) (src : list Z) (n k : Z) :
  0 <= k < n -> memcpy mem dst src n (dst + k) = nth (Z.to_nat k) src 0.
Proof.
  intros H. unfold memcpy.
  replace (dst <=? dst + k) with true by (symmetry; apply Z.leb_le; lia).
  replace (dst + k <? dst + n) with true by (symmetry; apply Z.ltb_lt; lia).
  cbn. f_equal. f_equal. lia.
Qed.

(** One MCU: the index stays a [uint16_t], the copy (if any) is within the
    buffer, and the memory outside the buffer is left alone. *)
Lemma store_mcu_safe (t : Tile) (pBuf : Z -> Z) (bufIndex : Z) :
  0 <= bufIndex < 2 ^ 16 ->
  let r := store_mcu t pBuf bufIndex in
  0 <= snd (fst r) < 2 ^ 16 /\
  Forall within_buffer (snd r) /\
  (forall i, i < 0 \/ 320 * 240 <= i -> fst (fst r) i = pBuf i).
Proof.
  intros Hb. unfold store_mcu.
  pose proof (mcuPixels_of_range t) as Hn.
  destruct (bufIndex + mcuPixels_of t <=? 320 * 240) eqn:E; cbn.
  - apply Z.leb_le in E. repeat split.
    + apply u16_range.
    + apply u16_range.
    + repeat constructor; lia.
    + intros i Hi. apply memcpy_outside. lia.
  - repeat split; try lia. constructor.
Qed.

Lemma read_buffered_safe (mcus : list Tile) :
  forall (pBuf : Z -> Z) (bufIndex : Z),
  0 <= bufIndex < 2 ^ 16 ->
  let r := read_buffered mcus pBuf bufIndex in
  0 <= snd (fst r) < 2 ^ 16 /\
  Forall within_buffer (snd r) /\
  (forall i, i < 0 \/ 320 * 240 <= i -> fst (fst r) i = pBuf i).
Proof.
  induction mcus as [| t rest IH]; intros pBuf bufIndex Hb; cbn.
  - repeat split; try lia. constructor.
  - destruct (store_mcu_safe t pBuf bufIndex Hb) as (H1 & H2 & H3).
    destruct (IH (fst (fst (store_mcu t pBuf bufIndex))) _ H1) as (G1 & G2 & G3).
    repeat split; try apply G1.
    + apply Forall_app. split; assumption.
    + intros i Hi. rewrite G3 by assumption. apply H3. assumption.
Qed.

Lemma read_buffered_only_memcpy (mcus : list Tile) :
  forall (pBuf : Z -> Z) (bufIndex : Z),
  let tr := snd (read_buffered mcus pBuf bufIndex) in
  forallb pool_neutral tr = true /\ pushes tr = [] /\ fps_samples tr = [].
Proof.
  induction mcus as [| t rest IH]; intros pBuf bufIndex; cbn.
  - repeat split.
  - unfold store_mcu.
    destruct (bufIndex + mcuPixels_of t <=? 320 * 240); cbn; apply IH.
Qed.

(** ** The shape of one pass of [loop] *)

Ltac binds :=
  repeat first [rewrite trace_bind | rewrite final_bind | rewrite result_bind];
  cbn [ret get modify emit emits result final trace fst snd app].

Lemma fps_tick_trace (t1 t2 : Z) (st : State) :
  trace (fps_tick t1 t2 st) =
    if 30 <=? u32 (frameCount st + 1)
    then fps_badge (mkFps (u32 (frameCount st + 1) * 1000)
                      (u32 (millis t1 - fpsTimer st)))
    else [].
Proof.
  unfold fps_tick. binds. cbn [frameCount set_frameCount fpsTimer].
  destruct (30 <=? u32 (frameCount st + 1)); binds;
    rewrite ?app_nil_r; reflexivity.
Qed.

Lemma fps_tick_final (t1 t2 : Z) (st : State) :
  final (fps_tick t1 t2 st) =
    if 30 <=? u32 (frameCount st + 1)
    then set_fpsTimer (millis t2)
           (set_frameCount 0
              (set_currentFPS
                 (mkFps (u32 (frameCount st + 1) * 1000)
                    (u32 (millis t1 - fpsTimer st)))
                 (set_frameCount (u32 (frameCount st + 1)) st)))
    else set_frameCount (u32 (frameCount st + 1)) st.
Proof.
  unfold fps_tick. binds. cbn [frameCount set_frameCount fpsTimer].
  destruct (30 <=? u32 (frameCount st + 1)); binds; reflexivity.
Qed.

(** The state in which [show_frame] reaches the FPS block. *)
Lemma show_frame_final (img : JpegImage) (t1 t2 : Z) (st : State) :
  final (show_frame img t1 t2 st) =
    final (fps_tick t1 t2
      (if bufferReady st
       then set_displayBuffer
              (fst (fst (read_buffered (jpeg_mcus img) (displayBuffer st) 0))) st
       else st)).
Proof.
  unfold show_frame. binds.
  destruct (bufferReady st); binds; reflexivity.
Qed.

Lemma show_frame_trace (img : JpegImage) (t1 t2 : Z) (st : State) :
  let w := u16 (jpeg_width img) in
  let h := u16 (jpeg_height img) in
  let x := center (tft_width st) w in
  let y := center (tft_height st) h in
  let r := read_buffered (jpeg_mcus img) (displayBuffer st) 0 in
  trace (show_frame img t1 t2 st) =
    (if bufferReady st
     then snd r ++ [TftPushImage x y w h (SrcDisplayBuffer (fst (fst r)))]
     else read_direct (jpeg_mcus img) x y)
    ++ (if 30 <=? u32 (frameCount st + 1)
        then fps_badge (mkFps (u32 (frameCount st + 1) * 1000)
                          (u32 (millis t1 - fpsTimer st)))
        else []).
Proof.
  cbv zeta. unfold show_frame. binds.
  destruct (bufferReady st); binds; rewrite fps_tick_trace; reflexivity.
Qed.

Lemma handle_capture_trace (env : CaptureEnv) (st : State) :
  trace (handle_capture env st) =
    if captureRequested st
    then trace (capturePhoto env (set_captureRequested false st))
    else [].
Proof.
  unfold handle_capture. binds.
  destruct (captureRequested st); binds; rewrite ?app_nil_r; reflexivity.
Qed.

Lemma handle_capture_final (env : CaptureEnv) (st : State) :
  final (handle_capture env st) =
    if captureRequested st
    then final (capturePhoto env (set_captureRequested false st))
    else st.
Proof.
  unfold handle_capture. binds.
  destruct (captureRequested st); binds; reflexivity.
Qed.

Lemma loop_trace (env : LoopEnv) (st : State) :
  let st1 := final (handle_capture (le_capture env) st) in
  trace (loop env st) =
    trace (handle_capture (le_capture env) st) ++
    FbGet (le_fb env) ::
    match le_fb env with
    | None => []
    | Some fb =>
        match le_jpeg env with
        | Some img => trace (show_frame img (le_time1 env) (le_time2 env) st1)
        | None => []
        end ++ [FbReturn fb]
    end.
Proof.
  cbv zeta. unfold loop, esp_camera_fb_get, esp_camera_fb_return. binds.
  destruct (le_fb env) as [fb|]; [| reflexivity].
  destruct (le_jpeg env) as [img|]; binds; reflexivity.
Qed.

Lemma loop_final (env : LoopEnv) (st : State) :
  let st1 := final (handle_capture (le_capture env) st) in
  final (loop env st) =
    match le_fb env, le_jpeg env with
    | Some _, Some img => final (show_frame img (le_time1 env) (le_time2 env) st1)
    | _, _ => st1
    end.
Proof.
  cbv zeta. unfold loop, esp_camera_fb_get, esp_camera_fb_return. binds.
  destruct (le_fb env) as [fb|]; [| reflexivity].
  destruct (le_jpeg env) as [img|]; binds; reflexivity.
Qed.

Lemma buttonPressed_trace (t : Z) (st : State) : trace (buttonPressed t st) = [].
Proof.
  unfold buttonPressed. binds.
  destruct (debounce_elapsed st (millis t)); binds; reflexivity.
Qed.

Lemma buttonPressed_final (t : Z) (st : State) :
  final (buttonPressed t st) =
    if debounce_elapsed st (millis t)
    then set_lastButtonPress (millis t) (set_captureRequested true st)
    else st.
Proof.
  unfold buttonPressed. binds.
  destruct (debounce_elapsed st (millis t)); binds; reflexivity.
Qed.

Lemma run_cons (i : Input) (rest : list Input) (st : State) :
  trace (run (i :: rest) st) =
    trace (step i st) ++ trace (run rest (final (step i st))) /\
  final (run (i :: rest) st) = final (run rest (final (step i st))).
Proof. cbn [run]. binds. split; reflexivity. Qed.

(** ** What the pieces of a pass put on the trace *)

Lemma read_direct_events (mcus : list Tile) (x y : Z) :
  forallb pool_neutral (read_direct mcus x y) = true /\
  Forall within_buffer (read_direct mcus x y) /\
  pushes (read_direct mcus x y) = read_direct mcus x y /\
  fps_samples (read_direct mcus x y) = [].
Proof.
  unfold read_direct.
  induction mcus as [| t rest (IH1 & IH2 & IH3 & IH4)]; cbn.
  - repeat split. constructor.
  - repeat split; try assumption.
    + constructor; [exact I | assumption].
    + unfold pushes in IH3. rewrite IH3. reflexivity.
Qed.

Lemma fps_badge_events (f : fps_sample) :
  forallb pool_neutral (fps_badge f) = true /\
  Forall within_buffer (fps_badge f) /\
  pushes (fps_badge f) = [] /\
  fps_samples (fps_badge f) = [f].
Proof. repeat split. repeat constructor. Qed.

Lemma fps_samples_app (a b : list Event) :
  fps_samples (a ++ b) = fps_samples a ++ fps_samples b.
Proof.
  induction a as [| e a IH]; [reflexivity |].
  destruct e; cbn; rewrite ?IH; reflexivity.
Qed.

Lemma pushes_app (a b : list Event) : pushes (a ++ b) = pushes a ++ pushes b.
Proof. apply filter_app. Qed.

Lemma pool_run_app (a b : list Event) :
  forall held,
  pool_run held (a ++ b) =
    match pool_run held a with
    | Some held' => pool_run held' b
    | None => None
    end.
Proof.
  induction a as [| e a IH]; intros held; [reflexivity |].
  destruct e; cbn; try apply IH.
  - destruct held; [reflexivity | apply IH].
  - destruct held as [fb'|]; [| reflexivity].
    destruct (camera_fb_eq_dec fb fb'); [apply IH | reflexivity].
Qed.

Lemma pool_run_neutral (tr : list Event) :
  forallb pool_neutral tr = true -> forall held, pool_run held tr = Some held.
Proof.
  induction tr as [| e tr IH]; intros H held; [reflexivity |].
  cbn in H. apply andb_prop in H. destruct H as [He Htr].
  destruct e; cbn in *; try discriminate; apply IH; assumption.
Qed.

Section Pass.

Variable img : JpegImage.
Variables t1 t2 : Z.
Variable st : State.

Let tr := trace (show_frame img t1 t2 st).

Lemma show_frame_pool_neutral : forallb pool_neutral tr = true.
Proof.
  subst tr. rewrite show_frame_trace. cbv zeta.
  rewrite forallb_app. apply andb_true_intro. split.
  - destruct (bufferReady st).
    + rewrite forallb_app.
      rewrite (proj1 (read_buffered_only_memcpy _ _ _)). reflexivity.
    + apply read_direct_events.
  - destruct (30 <=? u32 (frameCount st + 1)); [| reflexivity].
    apply fps_badge_events.
Qed.

Lemma show_frame_within_buffer : Forall within_buffer tr.
Proof.
  subst tr. rewrite show_frame_trace. cbv zeta.
  apply Forall_app. split.
  - destruct (bufferReady st).
    + apply Forall_app. split.
      * apply read_buffered_safe. lia.
      * repeat constructor.
    + apply read_direct_events.
  - destruct (30 <=? u32 (frameCount st + 1)); [| constructor].
    apply fps_badge_events.
Qed.

Lemma show_frame_outside (i : Z) :
  i < 0 \/ 320 * 240 <= i ->
  displayBuffer (final (show_frame img t1 t2 st)) i = displayBuffer st i.
Proof.
  intros Hi. rewrite show_frame_final, fps_tick_final.
  destruct (bufferReady st);
    destruct (30 <=? u32 (frameCount _ + 1)); cbn;
    try reflexivity; apply read_buffered_safe; (lia || assumption).
Qed.

(** The sample [show_frame] prints, if any. *)
Lemma show_frame_samples :
  fps_samples tr =
    if 30 <=? u32 (frameCount st + 1)
    then [mkFps (u32 (frameCount st + 1) * 1000) (u32 (millis t1 - fpsTimer st))]
    else [].
Proof.
  subst tr. rewrite show_frame_trace. cbv zeta. rewrite fps_samples_app.
  destruct (bufferReady st).
  - rewrite fps_samples_app.
    rewrite (proj2 (proj2 (read_buffered_only_memcpy _ _ _))).
    destruct (30 <=? u32 (frameCount st + 1)); reflexivity.
  - rewrite (proj2 (proj2 (proj2 (read_direct_events _ _ _)))).
    destruct (30 <=? u32 (frameCount st + 1)); reflexivity.
Qed.

(** The FPS globals [show_frame] leaves. *)
Lemma show_frame_counters :
  let st' := final (show_frame img t1 t2 st) in
  if 30 <=? u32 (frameCount st + 1)
  then currentFPS st' =
         mkFps (u32 (frameCount st + 1) * 1000) (u32 (millis t1 - fpsTimer st)) /\
       frameCount st' = 0 /\
       fpsTimer st' = millis t2
  else currentFPS st' = currentFPS st /\
       frameCount st' = u32 (frameCount st + 1) /\
       fpsTimer st' = fpsTimer st.
Proof.
  cbv zeta. rewrite show_frame_final, fps_tick_final.
  destruct (bufferReady st); cbn [frameCount set_displayBuffer fpsTimer];
    destruct (30 <=? u32 (frameCount st + 1)); repeat split.
Qed.

(** The [pushImage] calls of [show_frame]: the whole buffer once, or one
    call per MCU. *)
Lemma show_frame_pushes :
  let w := u16 (jpeg_width img) in
  let h := u16 (jpeg_height img) in
  let x := center (tft_width st) w in
  let y := center (tft_height st) h in
  pushes tr =
    if bufferReady st
    then [TftPushImage x y w h
            (SrcDisplayBuffer (displayBuffer (final (show_frame img t1 t2 st))))]
    else map (push_mcu x y) (jpeg_mcus img).
Proof.
  subst tr. cbv zeta.
  rewrite show_frame_trace, show_frame_final, fps_tick_final. cbv zeta.
  rewrite pushes_app.
  replace (pushes (if 30 <=? u32 (frameCount st + 1)
                   then fps_badge _ else [])) with (@nil Event)
    by (destruct (30 <=? u32 (frameCount st + 1)); reflexivity).
  rewrite app_nil_r.
  destruct (bufferReady st).
  - rewrite pushes_app.
    rewrite (proj1 (proj2 (read_buffered_only_memcpy _ _ _))).
    destruct (30 <=? _); reflexivity.
  - apply read_direct_events.
Qed.

End Pass.

Lemma handle_capture_events (env : CaptureEnv) (st : State) :
  let tr := trace (handle_capture env st) in
  pool_run None tr = Some None /\
  Forall within_buffer tr /\
  pushes tr = [] /\
  fps_samples tr = [].
Proof.
  cbv zeta. rewrite handle_capture_trace.
  destruct (captureRequested st).
  - split; [apply capturePhoto_pool | apply capturePhoto_no_memcpy_push_fps].
  - repeat split. constructor.
Qed.

(** [handle_capture] leaves the buffer, the FPS window, the button
    timestamp and the display geometry as they are. *)
Lemma handle_capture_frame (env : CaptureEnv) (st : State) :
  let st' := final (handle_capture env st) in
  displayBuffer st' = displayBuffer st /\
  bufferReady st' = bufferReady st /\
  frameCount st' = frameCount st /\
  fpsTimer st' = fpsTimer st /\
  currentFPS st' = currentFPS st /\
  lastButtonPress st' = lastButtonPress st /\
  tft_width st' = tft_width st /\
  tft_height st' = tft_height st.
Proof.
  cbv zeta. rewrite handle_capture_final.
  destruct (captureRequested st); [| repeat split].
  pose proof (capturePhoto_frame env (set_captureRequested false st)) as H.
  cbv zeta in H. cbn in H. intuition.
Qed.

Lemma loop_pool (env : LoopEnv) (st : State) :
  pool_run None (trace (loop env st)) = Some None.
Proof.
  rewrite loop_trace. cbv zeta.
  rewrite pool_run_app, (proj1 (handle_capture_events _ _)).
  destruct (le_fb env) as [fb|]; [| reflexivity].
  cbn [pool_run]. rewrite pool_run_app.
  rewrite pool_run_neutral.
  - cbn. destruct (camera_fb_eq_dec fb fb); congruence.
  - destruct (le_jpeg env); [apply show_frame_pool_neutral | reflexivity].
Qed.

Lemma loop_within_buffer (env : LoopEnv) (st : State) :
  Forall within_buffer (trace (loop env st)).
Proof.
  rewrite loop_trace. cbv zeta.
  apply Forall_app. split; [apply handle_capture_events |].
  constructor; [exact I |].
  destruct (le_fb env) as [fb|]; [| constructor].
  apply Forall_app. split; [| repeat constructor].
  destruct (le_jpeg env); [apply show_frame_within_buffer | constructor].
Qed.

Lemma loop_outside (env : LoopEnv) (st : State) (i : Z) :
  i < 0 \/ 320 * 240 <= i ->
  displayBuffer (final (loop env st)) i = displayBuffer st i.
Proof.
  intros Hi. rewrite loop_final. cbv zeta.
  pose proof (handle_capture_frame (le_capture env) st) as (Hd & _).
  destruct (le_fb env), (le_jpeg env); try (rewrite Hd; reflexivity).
  rewrite show_frame_outside by assumption. rewrite Hd. reflexivity.
Qed.

Lemma step_buffer (i : Input) (st : State) :
  pool_run None (trace (step i st)) = Some None /\
  Forall within_buffer (trace (step i st)) /\
  (forall k, k < 0 \/ 320 * 240 <= k ->
     displayBuffer (final (step i st)) k = displayBuffer st k).
Proof.
  destruct i as [t | env]; cbn [step].
  - rewrite buttonPressed_trace, buttonPressed_final.
    repeat split; [constructor |].
    intros k _. destruct (debounce_elapsed st (millis t)); reflexivity.
  - split; [apply loop_pool |].
    split; [apply loop_within_buffer | intros k; apply loop_outside].
Qed.

(** C4.  Along any run of button interrupts and passes of [loop], from any
    state, the calls to [esp_camera_fb_get] and [esp_camera_fb_return]
    follow the pool's discipline: a frame is acquired only while none is
    held, the frame returned is the one held, and at the end of the run none
    is held.  So each acquired frame is returned exactly once before the
    next acquisition, in [loop] (decode failure included) and in
    [capturePhoto]. *)
Theorem frames_returned_once (inputs : list Input) :
  forall st : State, pool_run None (trace (run inputs st)) = Some None.
Proof.
  induction inputs as [| i rest IH]; intros st; [reflexivity |].
  rewrite (proj1 (run_cons i rest st)), pool_run_app.
  rewrite (proj1 (step_buffer i st)). apply IH.
Qed.

(** C3.  Every [memcpy] of any run stays within the 320 * 240 pixels of the
    buffer, and the pixel memory below index 0 and from index 320 * 240 on
    is never changed.  For one MCU: when the write index plus its pixel
    count exceeds the capacity, nothing is copied and the index stays; when
    not, all its pixels are copied from the write index on and nothing
    else changes. *)
Theorem buffer_writes_within_capacity
    (inputs : list Input) (st : State)
    (t : Tile) (pBuf : Z -> Z) (bufIndex : Z) :
  Forall within_buffer (trace (run inputs st)) /\
  (forall i, i < 0 \/ 320 * 240 <= i ->
     displayBuffer (final (run inputs st)) i = displayBuffer st i) /\
  (320 * 240 < bufIndex + mcuPixels_of t ->
     store_mcu t pBuf bufIndex = (pBuf, bufIndex, [])) /\
  (bufIndex + mcuPixels_of t <= 320 * 240 ->
     let r := store_mcu t pBuf bufIndex in
     snd r = [MemcpyPixels bufIndex (pImage t) (mcuPixels_of t)] /\
     (forall k, 0 <= k < mcuPixels_of t ->
        fst (fst r) (bufIndex + k) = nth (Z.to_nat k) (pImage t) 0) /\
     (forall i, i < bufIndex \/ bufIndex + mcuPixels_of t <= i ->
        fst (fst r) i = pBuf i)).
Proof.
  split; [| split; [| split]].
  - revert st. induction inputs as [| i rest IH]; intros st; [constructor |].
    rewrite (proj1 (run_cons i rest st)). apply Forall_app.
    split; [apply step_buffer | apply IH].
  - revert st. induction inputs as [| i rest IH]; intros st k Hk; [reflexivity |].
    rewrite (proj2 (run_cons i rest st)), IH by assumption.
    apply step_buffer. assumption.
  - intros H. unfold store_mcu.
    destruct (bufIndex + mcuPixels_of t <=? 320 * 240) eqn:E; [| reflexivity].
    apply Z.leb_le in E. lia.
  - intros H. unfold store_mcu.
    destruct (bufIndex + mcuPixels_of t <=? 320 * 240) eqn:E.
    + cbn. repeat split.
      * intros k Hk. apply memcpy_inside. assumption.
      * intros i Hi. apply memcpy_outside. assumption.
    + apply Z.leb_gt in E. lia.
Qed.

Lemma buffer_writes_within_capacity_witness :
  Forall within_buffer
    (trace (run [LoopPass (Scenario.pass Scenario.small)] Scenario.ready)) /\
  store_mcu (mkTile 0 0 200 100 []) (fun _ => 0) 60000 = (fun _ => 0, 60000, []) /\
  snd (store_mcu (Scenario.mcu 3) (fun _ => 0) 384) =
    [MemcpyPixels 384 (pImage (Scenario.mcu 3)) 128].
Proof.
  pose proof (buffer_writes_within_capacity
                [LoopPass (Scenario.pass Scenario.small)] Scenario.ready
                (mkTile 0 0 200 100 []) (fun _ => 0) 60000) as (H1 & _ & H3 & _).
  pose proof (buffer_writes_within_capacity
                [] Scenario.ready (Scenario.mcu 3) (fun _ => 0) 384)
    as (_ & _ & _ & H4).
  split; [exact H1 |].
  split; [apply H3; vm_compute; reflexivity |].
  apply H4. vm_compute. discriminate.
Defined.

(** ** Debounce *)

Lemma u32_sub_millis (t t0 : Z) : u32 (millis t - millis t0) = (t - t0) mod 2 ^ 32.
Proof. unfold millis, u32. symmetry. apply Zminus_mod. Qed.

Lemma clock_monotone_weaken (ts : list Z) (t0 t : Z) :
  t0 <= t -> clock_monotone t ts -> clock_monotone t0 ts.
Proof.
  destruct ts as [| t' rest]; cbn; [trivial |].
  intros H [H1 H2]. split; [lia | assumption].
Qed.

Lemma loop_lastButtonPress (env : LoopEnv) (st : State) :
  lastButtonPress (final (loop env st)) = lastButtonPress st.
Proof.
  rewrite loop_final. cbv zeta.
  pose proof (handle_capture_frame (le_capture env) st) as H.
  cbv zeta in H. destruct H as (_ & _ & _ & _ & _ & Hl & _).
  destruct (le_fb env), (le_jpeg env); try exact Hl.
  rewrite show_frame_final, fps_tick_final.
  destruct (bufferReady _); destruct (30 <=? _); cbn; exact Hl.
Qed.

(** An accepted press lies more than 200 ms after the press whose time the
    handler has recorded, when the clock is monotone. *)
Lemma accepted_spaced (inputs : list Input) :
  forall (st : State) (t0 : Z),
  lastButtonPress st = millis t0 ->
  clock_monotone t0 (button_times inputs) ->
  spaced t0 (accepted_presses inputs st).
Proof.
  induction inputs as [| i rest IH]; intros st t0 Hlast Hmono; [exact I |].
  destruct i as [t | env]; cbn [accepted_presses button_times step] in *.
  - destruct Hmono as [Hle Hmono].
    rewrite buttonPressed_final.
    destruct (debounce_elapsed st (millis t)) eqn:E.
    + unfold debounce_elapsed in E. rewrite Hlast, u32_sub_millis in E.
      apply Z.ltb_lt in E. unfold debounceDelay in *.
      assert (t0 + 200 < t) as Hgap.
      { destruct (Z_lt_le_dec (t0 + 200) t) as [| Hs]; [assumption |].
        rewrite Z.mod_small in E by lia. lia. }
      cbn [spaced]. split; [exact Hgap |].
      apply IH; [reflexivity | assumption].
    + apply IH; [assumption |].
      apply (clock_monotone_weaken _ t0 t); assumption.
  - apply IH; [| assumption].
    rewrite loop_lastButtonPress. assumption.
Qed.

Lemma spaced_filter_nil (ts : list Z) :
  forall (t0 a : Z), spaced t0 ts -> a <= t0 -> filter (in_window a) ts = [].
Proof.
  induction ts as [| t rest IH]; intros t0 a Hs Ha; [reflexivity |].
  destruct Hs as [Hgap Hs]. cbn. unfold debounceDelay in Hgap.
  replace (in_window a t) with false.
  - apply (IH t); [assumption | lia].
  - symmetry. unfold in_window, debounceDelay.
    apply andb_false_intro2. apply Z.leb_gt. lia.
Qed.

Lemma spaced_window (ts : list Z) :
  forall (t0 a : Z),
  spaced t0 ts -> (List.length (filter (in_window a) ts) <= 1)%nat.
Proof.
  induction ts as [| t rest IH]; intros t0 a Hs; cbn; [lia |].
  destruct Hs as [Hgap Hs].
  destruct (in_window a t) eqn:E.
  - unfold in_window in E. apply andb_prop in E. destruct E as [E _].
    apply Z.leb_le in E.
    rewrite (spaced_filter_nil rest t a) by assumption. cbn. lia.
  - apply (IH t). assumption.
Qed.

(** C5.  The handler draws nothing; it sets the flag and records the time
    exactly when the [unsigned long] difference between the time and the
    recorded one exceeds 200, and otherwise leaves the state as it is; in
    both cases every global other than the flag and the timestamp is
    unchanged.  From a state whose recorded time is that of [t0] (0 after
    [setup]), along any run of interrupts and passes of [loop] whose clock
    starts at [t0] and never runs backwards, the accepted presses lie more
    than 200 ms apart, so any window of 200 ms holds at most one of them. *)
Theorem buttonPressed_debounce
    (st : State) (t : Z) (st0 : State) (t0 : Z) (inputs : list Input) (a : Z) :
  lastButtonPress st0 = millis t0 ->
  clock_monotone t0 (button_times inputs) ->
  trace (buttonPressed t st) = [] /\
  final (buttonPressed t st) =
    (if debounceDelay <? u32 (millis t - lastButtonPress st)
     then set_lastButtonPress (millis t) (set_captureRequested true st)
     else st) /\
  (let st' := final (buttonPressed t st) in
   displayBuffer st' = displayBuffer st /\
   bufferReady st' = bufferReady st /\
   frameCount st' = frameCount st /\
   fpsTimer st' = fpsTimer st /\
   currentFPS st' = currentFPS st /\
   lastFPSUpdate st' = lastFPSUpdate st /\
   photoCount st' = photoCount st /\
   sdCardAvailable st' = sdCardAvailable st /\
   sensor st' = sensor st /\
   tft_width st' = tft_width st /\
   tft_height st' = tft_height st) /\
  spaced t0 (accepted_presses inputs st0) /\
  (List.length (filter (in_window a) (accepted_presses inputs st0)) <= 1)%nat.
Proof.
  intros Hlast Hmono.
  assert (spaced t0 (accepted_presses inputs st0)) as Hs
    by (apply accepted_spaced; assumption).
  split; [apply buttonPressed_trace |].
  split; [apply buttonPressed_final |].
  split.
  - cbv zeta. rewrite buttonPressed_final.
    destruct (debounce_elapsed st (millis t)); repeat split.
  - split; [exact Hs | apply (spaced_window _ t0); exact Hs].
Qed.

Lemma buttonPressed_debounce_witness :
  accepted_presses
    [Button 100; Button 250; Button 300; LoopPass (Scenario.pass Scenario.small);
     Button 450; Button 451; Button 5000] Scenario.ready = [250; 451; 5000] /\
  (List.length
     (filter (in_window 251)
        (accepted_presses
           [Button 100; Button 250; Button 300;
            LoopPass (Scenario.pass Scenario.small);
            Button 450; Button 451; Button 5000] Scenario.ready)) <= 1)%nat.
Proof.
  split; [reflexivity |].
  apply (buttonPressed_debounce Scenario.ready 0 Scenario.ready 0);
    [reflexivity |].
  cbn. lia.
Defined.

(** ** FPS window *)

Lemma u32_small (z : Z) : 0 <= z < 2 ^ 32 -> u32 z = z.
Proof. apply Z.mod_small. Qed.

Section Window.

Variable img : JpegImage.
Variables t1 t2 : Z.
Variable st : State.
Hypothesis Hcount : 0 <= frameCount st < 30.

Lemma show_frame_fps :
  let r := show_frame img t1 t2 st in
  let f := mkFps (30 * 1000) (u32 (millis t1 - fpsTimer st)) in
  if frameCount st + 1 =? 30
  then fps_samples (trace r) = [f] /\
       currentFPS (final r) = f /\
       frameCount (final r) = 0 /\
       fpsTimer (final r) = millis t2
  else fps_samples (trace r) = [] /\
       currentFPS (final r) = currentFPS st /\
       frameCount (final r) = frameCount st + 1 /\
       fpsTimer (final r) = fpsTimer st.
Proof.
  cbv zeta.
  pose proof (show_frame_counters img t1 t2 st) as Hc. cbv zeta in Hc.
  rewrite show_frame_samples.
  rewrite u32_small in * by lia.
  destruct (Z.eqb_spec (frameCount st + 1) 30) as [E | E].
  - rewrite E in *. cbn [Z.leb Z.compare Pos.compare Pos.compare_cont] in *.
    cbn [Z.mul Pos.mul Pos.add] in *. intuition.
  - destruct (Z.leb_spec 30 (frameCount st + 1)); [lia |]. intuition.
Qed.

End Window.

Lemma loop_fps_idle (env : LoopEnv) (st : State) :
  match le_fb env, le_jpeg env with
  | Some _, Some _ => True
  | _, _ =>
      let r := loop env st in
      fps_samples (trace r) = [] /\
      currentFPS (final r) = currentFPS st /\
      frameCount (final r) = frameCount st /\
      fpsTimer (final r) = fpsTimer st
  end.
Proof.
  pose proof (handle_capture_frame (le_capture env) st) as H.
  pose proof (handle_capture_events (le_capture env) st) as G.
  cbv zeta in H, G.
  destruct H as (_ & _ & Hc & Ht & Hf & _).
  destruct G as (_ & _ & _ & Hs).
  destruct (le_fb env) as [fb|] eqn:Efb, (le_jpeg env) as [img|] eqn:Ejp;
    [exact I | | |];
    cbv zeta; rewrite loop_trace, loop_final; cbv zeta;
    rewrite Efb, ?Ejp, fps_samples_app, Hs; repeat split; assumption.
Qed.

Lemma loop_fps_frame (env : LoopEnv) (st : State) (fb : camera_fb) (img : JpegImage) :
  le_fb env = Some fb ->
  le_jpeg env = Some img ->
  0 <= frameCount st < 30 ->
  let r := loop env st in
  let f := mkFps (30 * 1000) (u32 (millis (le_time1 env) - fpsTimer st)) in
  if frameCount st + 1 =? 30
  then fps_samples (trace r) = [f] /\
       currentFPS (final r) = f /\
       frameCount (final r) = 0 /\
       fpsTimer (final r) = millis (le_time2 env)
  else fps_samples (trace r) = [] /\
       currentFPS (final r) = currentFPS st /\
       frameCount (final r) = frameCount st + 1 /\
       fpsTimer (final r) = fpsTimer st.
Proof.
  intros Efb Ejp Hcount.
  pose proof (handle_capture_frame (le_capture env) st) as H.
  pose proof (handle_capture_events (le_capture env) st) as G.
  cbv zeta in H, G.
  destruct H as (_ & _ & Hc & Ht & Hf & _).
  destruct G as (_ & _ & _ & Hs).
  cbv zeta. rewrite loop_trace, loop_final. cbv zeta. rewrite Efb, Ejp.
  rewrite fps_samples_app, Hs. cbn [app fps_samples].
  rewrite fps_samples_app. cbn [fps_samples]. rewrite app_nil_r.
  set (st1 := final (handle_capture (le_capture env) st)) in *.
  assert (0 <= frameCount st1 < 30) as Hcount1 by (rewrite Hc; assumption).
  pose proof (show_frame_fps img (le_time1 env) (le_time2 env) st1 Hcount1) as S.
  cbv zeta in S. rewrite Hc, Ht, Hf in S. exact S.
Qed.

Lemma step_frameCount (i : Input) (st : State) :
  0 <= frameCount st < 30 -> 0 <= frameCount (final (step i st)) < 30.
Proof.
  intros Hcount. destruct i as [t | env]; cbn [step].
  - rewrite buttonPressed_final.
    destruct (debounce_elapsed st (millis t)); exact Hcount.
  - destruct (le_fb env) as [fb|] eqn:Efb, (le_jpeg env) as [img|] eqn:Ejp.
    + pose proof (loop_fps_frame env st fb img Efb Ejp Hcount) as H.
      cbv zeta in H.
      destruct (frameCount st + 1 =? 30) eqn:E;
        destruct H as (_ & _ & -> & _); [lia |].
      apply Z.eqb_neq in E. lia.
    + pose proof (loop_fps_idle env st) as H. rewrite Efb, Ejp in H.
      cbv zeta in H. destruct H as (_ & _ & -> & _). exact Hcount.
    + pose proof (loop_fps_idle env st) as H. rewrite Efb in H.
      cbv zeta in H. destruct H as (_ & _ & -> & _). exact Hcount.
    + pose proof (loop_fps_idle env st) as H. rewrite Efb in H.
      cbv zeta in H. destruct H as (_ & _ & -> & _). exact Hcount.
Qed.

Lemma run_frameCount (inputs : list Input) :
  forall st : State,
  0 <= frameCount st < 30 -> 0 <= frameCount (final (run inputs st)) < 30.
Proof.
  induction inputs as [| i rest IH]; intros st Hcount; [exact Hcount |].
  rewrite (proj2 (run_cons i rest st)). apply IH, step_frameCount, Hcount.
Qed.

Lemma setup_frameCount (senv : SetupEnv) (st0 : State) :
  setup senv = Some st0 -> frameCount st0 = 0.
Proof.
  unfold setup. destruct (se_camera_init senv); [| discriminate].
  cbn. intros [= <-].
  destruct (se_malloc senv), (se_sensor senv), (se_sd_begin senv); reflexivity.
Qed.

(** C6.  In every state reached from [setup] the counter lies in 0..29.  A
    pass of [loop] that acquires and decodes a frame adds one to it; when
    that makes 30, the pass prints the one sample 30 * 1000 / elapsed, with
    elapsed the [uint32_t] time since [fpsTimer], stores it in [currentFPS],
    sets the counter to 0 and [fpsTimer] to the time of the second clock
    reading; otherwise it prints no sample and leaves [currentFPS] and
    [fpsTimer].  A pass without a frame, or whose frame fails to decode,
    leaves the counter, the timer and the sample and prints nothing. *)
Theorem fps_window
    (senv : SetupEnv) (st0 : State) (inputs : list Input) (env : LoopEnv) :
  setup senv = Some st0 ->
  let st := final (run inputs st0) in
  let r := loop env st in
  let f := mkFps (30 * 1000) (u32 (millis (le_time1 env) - fpsTimer st)) in
  0 <= frameCount st < 30 /\
  match le_fb env, le_jpeg env with
  | Some _, Some _ =>
      if frameCount st + 1 =? 30
      then fps_samples (trace r) = [f] /\
           currentFPS (final r) = f /\
           frameCount (final r) = 0 /\
           fpsTimer (final r) = millis (le_time2 env)
      else fps_samples (trace r) = [] /\
           currentFPS (final r) = currentFPS st /\
           frameCount (final r) = frameCount st + 1 /\
           fpsTimer (final r) = fpsTimer st
  | _, _ =>
      fps_samples (trace r) = [] /\
      currentFPS (final r) = currentFPS st /\
      frameCount (final r) = frameCount st /\
      fpsTimer (final r) = fpsTimer st
  end.
Proof.
  intros Hsetup. cbv zeta.
  assert (0 <= frameCount (final (run inputs st0)) < 30) as Hcount.
  { apply run_frameCount. rewrite (setup_frameCount _ _ Hsetup). lia. }
  split; [exact Hcount |].
  set (st := final (run inputs st0)) in *.
  pose proof (loop_fps_idle env st) as Hidle.
  destruct (le_fb env) as [fb|] eqn:Efb, (le_jpeg env) as [img|] eqn:Ejp;
    try exact Hidle.
  apply (loop_fps_frame env st fb img Efb Ejp Hcount).
Qed.

Lemma fps_window_witness :
  let st := final (run (repeat (LoopPass (Scenario.pass Scenario.small)) 29)
                     Scenario.ready) in
  let r := loop (Scenario.pass Scenario.small) st in
  setup Scenario.boot = Some Scenario.ready /\
  frameCount st = 29 /\
  fps_samples (trace r) = [mkFps 30000 2000] /\
  frameCount (final r) = 0 /\
  fpsTimer (final r) = 4510.
Proof.
  cbv zeta.
  pose proof (fps_window Scenario.boot Scenario.ready
                (repeat (LoopPass (Scenario.pass Scenario.small)) 29)
                (Scenario.pass Scenario.small) eq_refl) as H.
  cbv zeta in H. destruct H as [_ H].
  assert (frameCount
            (final (run (repeat (LoopPass (Scenario.pass Scenario.small)) 29)
                      Scenario.ready)) = 29) as E by (vm_compute; reflexivity).
  assert (fpsTimer
            (final (run (repeat (LoopPass (Scenario.pass Scenario.small)) 29)
                      Scenario.ready)) = 2500) as T by (vm_compute; reflexivity).
  cbn [Scenario.pass le_fb le_jpeg le_time1 le_time2] in H.
  rewrite E, T in H. cbn [Z.add Z.eqb Pos.add Pos.succ Pos.eqb] in H.
  destruct H as (H1 & _ & H3 & H4).
  split; [reflexivity |].
  split; [exact E |].
  split; [exact H1 |].
  split; [exact H3 | exact H4].
Defined.

(** ** Centering *)

Lemma center_floor (extent size : Z) :
  in_s16 extent -> 0 <= size <= extent ->
  center extent size = (extent - size) / 2 /\
  0 <= (extent - size) / 2 < 2 ^ 15.
Proof.
  unfold in_s16, center, s16. intros He Hs.
  assert (0 <= (extent - size) / 2 <= extent - size) as Hq.
  { split; [apply Z.div_pos; lia | apply Z.div_le_upper_bound; lia]. }
  rewrite Z.quot_div_nonneg by lia.
  rewrite Z.mod_small by lia. lia.
Qed.

Lemma s32_small (z : Z) : - 2 ^ 31 <= z < 2 ^ 31 -> s32 z = z.
Proof. intros H. unfold s32. rewrite Z.mod_small by lia. lia. Qed.

Lemma loop_pushes (env : LoopEnv) (st : State) (fb : camera_fb) (img : JpegImage) :
  le_fb env = Some fb ->
  le_jpeg env = Some img ->
  let w := u16 (jpeg_width img) in
  let h := u16 (jpeg_height img) in
  let x := center (tft_width st) w in
  let y := center (tft_height st) h in
  pushes (trace (loop env st)) =
    if bufferReady st
    then [TftPushImage x y w h
            (SrcDisplayBuffer (displayBuffer (final (loop env st))))]
    else map (push_mcu x y) (jpeg_mcus img).
Proof.
  intros Efb Ejp. cbv zeta.
  pose proof (handle_capture_frame (le_capture env) st) as H.
  pose proof (handle_capture_events (le_capture env) st) as G.
  cbv zeta in H, G.
  destruct H as (_ & Hb & _ & _ & _ & _ & Hw & Hh).
  destruct G as (_ & _ & Hp & _).
  rewrite loop_trace, loop_final. cbv zeta. rewrite Efb, Ejp.
  rewrite pushes_app, Hp.
  change (FbGet (Some fb) :: ?l) with ([FbGet (Some fb)] ++ l).
  rewrite !pushes_app, show_frame_pushes. cbv zeta.
  rewrite Hb, Hw, Hh. cbn [pushes filter is_push app].
  apply app_nil_r.
Qed.

(** C9.  A pass of [loop] that decodes a frame of [w] x [h] pixels fitting
    the display of [W] x [H] presents it with its top-left corner at
    (floor((W - w) / 2), floor((H - h) / 2)): on the buffered path by the
    one [pushImage] of the whole buffer at that position, on the per-tile
    path by one [pushImage] per MCU at its grid offset from that position,
    the MCU of grid position (0, 0) landing exactly there. *)
Theorem frame_centered
    (env : LoopEnv) (st : State) (fb : camera_fb) (img : JpegImage) :
  le_fb env = Some fb ->
  le_jpeg env = Some img ->
  in_s16 (tft_width st) ->
  in_s16 (tft_height st) ->
  u16 (jpeg_width img) <= tft_width st ->
  u16 (jpeg_height img) <= tft_height st ->
  let w := u16 (jpeg_width img) in
  let h := u16 (jpeg_height img) in
  let x := (tft_width st - w) / 2 in
  let y := (tft_height st - h) / 2 in
  pushes (trace (loop env st)) =
    (if bufferReady st
     then [TftPushImage x y w h
             (SrcDisplayBuffer (displayBuffer (final (loop env st))))]
     else map (push_mcu x y) (jpeg_mcus img)) /\
  (forall t : Tile,
     MCUx t = 0 -> MCUy t = 0 ->
     push_mcu x y t =
       TftPushImage x y (MCUWidth t) (MCUHeight t) (SrcMCU (pImage t))).
Proof.
  intros Efb Ejp HW HH Hw Hh. cbv zeta.
  pose proof (u16_range (jpeg_width img)) as Rw.
  pose proof (u16_range (jpeg_height img)) as Rh.
  destruct (center_floor (tft_width st) (u16 (jpeg_width img)) HW) as [Ex Bx];
    [lia |].
  destruct (center_floor (tft_height st) (u16 (jpeg_height img)) HH) as [Ey By];
    [lia |].
  split.
  - rewrite (loop_pushes env st fb img Efb Ejp). cbv zeta.
    rewrite Ex, Ey. reflexivity.
  - intros t Hx Hy. unfold push_mcu. rewrite Hx, Hy.
    cbn [Z.mul]. change (s32 0) with 0. cbn [Z.add].
    rewrite !s32_small by lia. reflexivity.
Qed.

Lemma frame_centered_witness :
  pushes (trace (loop (Scenario.pass Scenario.small)
                   (set_bufferReady false Scenario.ready))) =
    map (push_mcu 144 112) (jpeg_mcus Scenario.small) /\
  push_mcu 144 112 (mkTile 0 0 16 8 (repeat 1 128)) =
    TftPushImage 144 112 16 8 (SrcMCU (repeat 1 128)).
Proof.
  pose proof (frame_centered (Scenario.pass Scenario.small)
                (set_bufferReady false Scenario.ready)
                Scenario.frame Scenario.small eq_refl eq_refl) as H.
  cbv zeta in H.
  destruct H as [H1 H2].
  - vm_compute. split; [discriminate | reflexivity].
  - vm_compute. split; [discriminate | reflexivity].
  - vm_compute. discriminate.
  - vm_compute. discriminate.
  - split; [exact H1 | apply (H2 (mkTile 0 0 16 8 (repeat 1 128))); reflexivity].
Defined.

(** ** Where the accumulated offsets are exact *)

Lemma memcpys_app (a b : list Event) : memcpys (a ++ b) = memcpys a ++ memcpys b.
Proof.
  induction a as [| e a IH]; [reflexivity |].
  destruct e; cbn; rewrite ?IH; reflexivity.
Qed.

(** X9.  While the pixels delivered so far stay below 2^16, every MCU is
    copied at the accumulated pixel count of the MCUs before it. *)
Lemma read_buffered_offsets (mcus : list Tile) :
  forall (pBuf : Z -> Z) (bufIndex : Z),
  0 <= bufIndex ->
  bufIndex + total_pixels mcus < 2 ^ 16 ->
  memcpys (snd (read_buffered mcus pBuf bufIndex)) =
    accumulated_offsets bufIndex mcus.
Proof.
  induction mcus as [| t rest IH]; intros pBuf bufIndex H0 Hsum; [reflexivity |].
  cbn [read_buffered total_pixels accumulated_offsets fst snd] in *.
  pose proof (mcuPixels_of_range t) as Hn.
  assert (0 <= total_pixels rest) as Hrest.
  { clear. induction rest as [| t' r IHr]; cbn; [lia |].
    pose proof (mcuPixels_of_range t'). lia. }
  rewrite memcpys_app. unfold store_mcu.
  replace (bufIndex + mcuPixels_of t <=? 320 * 240) with true
    by (symmetry; apply Z.leb_le; lia).
  cbn [fst snd memcpys app]. f_equal.
  unfold u16 at 1. rewrite Z.mod_small by lia.
  apply IH; lia.
Qed.

(** C2, evaluated on the code.  A QVGA picture arrives as 600 MCUs of 128
    pixels, 76800 pixels in all.  The first 512 are copied at their
    accumulated offsets; the 513th, whose accumulated offset is 65536, is
    copied at index 0, because the [uint16_t] index has wrapped.  At the end
    the index is 11264, pixel 0 holds a pixel of MCU 512 and index 65536 was
    never written. *)
Theorem read_buffered_qvga_wraps :
  let mcus := jpeg_mcus Scenario.qvga in
  let r := read_buffered mcus (fun _ => -1) 0 in
  total_pixels mcus = 320 * 240 /\
  List.length (memcpys (snd r)) = 600%nat /\
  firstn 512 (memcpys (snd r)) = firstn 512 (accumulated_offsets 0 mcus) /\
  nth 512 (accumulated_offsets 0 mcus) (0, 0) = (65536, 128) /\
  nth 512 (memcpys (snd r)) (0, 0) = (0, 128) /\
  snd (fst r) = 11264 /\
  fst (fst r) 0 = 512 /\
  fst (fst r) 65536 = -1.
Proof. vm_compute. repeat split. Qed.

(** * Further properties of the sketch *)

(** ** Still capture: counter, storage and camera calls *)

(** X1.  [capturePhoto] adds one to [photoCount] exactly when the card is
    present and a frame was acquired, whether or not the file could be
    opened; the success banner, when drawn, shows the new count. *)
Theorem capturePhoto_photoCount (env : CaptureEnv) (st : State) :
  let r := capturePhoto env st in
  let acquired :=
    sdCardAvailable st &&
    match ce_fb env with Some _ => true | None => false end in
  photoCount (final r) =
    (if acquired then s32 (photoCount st + 1) else photoCount st) /\
  opens (trace r) = (if acquired then 1%nat else 0%nat) /\
  filter (fun e => match e with TftPrintfImage _ => true | _ => false end)
         (trace r) =
    (if acquired && ce_file env
     then [TftPrintfImage (s32 (photoCount st + 1))]
     else []).
Proof.
  cbv zeta. capture_cases env st; repeat split.
Qed.

(** X2.  The SD calls of [capturePhoto]: none without a card or without a
    frame; otherwise one [SD.open] of the name built from the clock, and,
    when it yields a file, one write of the frame's bytes and length as
    they are, followed by the close. *)
Theorem capturePhoto_storage_calls (env : CaptureEnv) (st : State) :
  filter is_storage (trace (capturePhoto env st)) =
    match sdCardAvailable st, ce_fb env with
    | true, Some fb =>
        SdOpen (photo_filename (ce_time env)) (ce_file env) ::
        (if ce_file env
         then [FileWrite (fb_buf fb) (fb_len fb) (ce_written env); FileClose]
         else [])
    | _, _ => []
    end.
Proof.
  capture_cases env st; reflexivity.
Qed.

(** X3.  The camera calls of [capturePhoto], in order: none without a card;
    otherwise the switch to VGA at quality 4 (with a sensor handle), the
    acquisition, the return of the frame if there is one, and the switch to
    QVGA at quality 8 (with a sensor handle).  So the acquisition is always
    bracketed by the two switches. *)
Theorem capturePhoto_camera_calls (env : CaptureEnv) (st : State) :
  filter touches_camera (trace (capturePhoto env st)) =
    if sdCardAvailable st then
      (if ce_sensor env
       then [SensorSetFramesize FRAMESIZE_VGA; SensorSetQuality 4]
       else []) ++
      FbGet (ce_fb env) ::
      match ce_fb env with Some fb => [FbReturn fb] | None => [] end ++
      (if ce_sensor env
       then [SensorSetFramesize FRAMESIZE_QVGA; SensorSetQuality 8]
       else [])
    else [].
Proof.
  capture_cases env st; reflexivity.
Qed.

(** ** Debounce in true time *)

(** X4.  When the handler's recorded time is that of [t0] and the press
    comes at [t], no earlier than [t0] and less than 2^32 ms later, the
    press is accepted exactly when [t - t0] exceeds 200 ms: then the flag is
    set and the time of [t] recorded, otherwise the state is left as it
    is. *)
Theorem buttonPressed_true_time (st : State) (t t0 : Z) :
  lastButtonPress st = millis t0 ->
  0 <= t - t0 < 2 ^ 32 ->
  debounce_elapsed st (millis t) = (200 <? t - t0) /\
  final (buttonPressed t st) =
    (if 200 <? t - t0
     then set_lastButtonPress (millis t) (set_captureRequested true st)
     else st).
Proof.
  intros Hlast Hrange.
  assert (debounce_elapsed st (millis t) = (200 <? t - t0)) as E.
  { unfold debounce_elapsed, debounceDelay.
    rewrite Hlast, u32_sub_millis, Z.mod_small by assumption. reflexivity. }
  split; [exact E |].
  rewrite buttonPressed_final, E. reflexivity.
Qed.

Lemma buttonPressed_true_time_witness :
  captureRequested (final (buttonPressed 180 Scenario.ready)) = false /\
  captureRequested
    (final (buttonPressed 500 (final (buttonPressed 201 Scenario.ready)))) =
    true.
Proof.
  destruct (buttonPressed_true_time Scenario.ready 180 0 eq_refl)
    as [_ H1]; [lia |].
  destruct (buttonPressed_true_time
              (final (buttonPressed 201 Scenario.ready)) 500 201 eq_refl)
    as [_ H2]; [lia |].
  rewrite H1, H2. split; reflexivity.
Defined.

(** ** File names *)

Lemma String_of_inj (a b : Z) :
  0 <= a -> 0 <= b -> String_of a = String_of b -> a = b.
Proof.
  unfold String_of. intros Ha Hb H.
  assert (forall n, N.to_uint n <> Decimal.Nil) as Hnil.
  { intros [| p]; [discriminate | apply DecimalPos.Unsigned.to_uint_nonnil]. }
  apply (f_equal NilZero.uint_of_string) in H.
  rewrite !NilZero.usu in H by apply Hnil.
  injection H as H. apply DecimalN.Unsigned.to_uint_inj in H.
  apply Z2N.inj; assumption.
Qed.

Lemma append_inv_tail (s : string) :
  forall a b : string, (a ++ s = b ++ s)%string -> a = b.
Proof.
  assert (forall a : string,
            String.length (a ++ s) = (String.length a + String.length s)%nat)
    as Hlen.
  { induction a as [| c a IH]; cbn; [reflexivity | rewrite IH; reflexivity]. }
  induction a as [| c a IH]; intros [| c' b] H; cbn in H.
  - reflexivity.
  - apply (f_equal String.length) in H. cbn in H. rewrite Hlen in H. lia.
  - apply (f_equal String.length) in H. cbn in H. rewrite Hlen in H. lia.
  - injection H as -> H. f_equal. apply IH. exact H.
Qed.

(** X5.  The name of a capture lies in the directory "/photos" and depends
    on the clock alone, not on [photoCount]: two captures get the same name
    exactly when their [millis()] readings agree, that is when their times
    differ by a multiple of 2^32 ms. *)
Theorem photo_filename_unique (t1 t2 : Z) :
  prefix "/photos/IMG_" (photo_filename t1) = true /\
  (photo_filename t1 = photo_filename t2 <-> millis t1 = millis t2) /\
  (millis t1 = millis t2 <-> (t1 - t2) mod 2 ^ 32 = 0).
Proof.
  split.
  { unfold photo_filename.
    change (prefix "" (String_of (millis t1) ++ ".jpg") = true).
    destruct (String_of (millis t1) ++ ".jpg")%string; reflexivity. }
  split; split.
  - unfold photo_filename. intros H.
    cbn in H. injection H as H.
    apply append_inv_tail in H.
    apply String_of_inj in H; [exact H | |];
      unfold millis, u32; apply Z.mod_pos_bound; lia.
  - intros H. unfold photo_filename. rewrite H. reflexivity.
  - unfold millis, u32. intros H.
    rewrite Zminus_mod, H, Z.sub_diag. reflexivity.
  - unfold millis, u32. intros H.
    rewrite <- (Z.sub_add t2 t1) at 1.
    rewrite Zplus_mod, H, Z.add_0_l, Z.mod_mod by lia. reflexivity.
Qed.

(** ** SD card initialisation *)



(** ** FPS badge *)

(** X7.  The badge of a window of 30 frames that took [elapsed] ms: the
    number is drawn in the success colour with the full circle when
    [elapsed] is at most 2000 ms (15 fps or more, a zero [elapsed]
    included), in yellow with the half circle when it is above 2000 and at
    most 3000 ms (10 fps or more), and in the error colour with the empty
    circle above 3000 ms.  Colour and glyph always agree. *)
Theorem fps_badge_tiers (elapsed : Z) :
  0 <= elapsed ->
  let f := mkFps (30 * 1000) elapsed in
  let colour := nth 9 (fps_badge f) FileClose in
  let glyph := nth 14 (fps_badge f) FileClose in
  nth 10 (fps_badge f) FileClose = TftPrintfFps f /\
  (elapsed <= 2000 ->
     colour = TftSetTextColor uiSuccessColor uiBackgroundColor /\
     glyph = TftPrintln "●") /\
  (2000 < elapsed <= 3000 ->
     colour = TftSetTextColor TFT_YELLOW uiBackgroundColor /\
     glyph = TftPrintln "◐") /\
  (3000 < elapsed ->
     colour = TftSetTextColor uiErrorColor uiBackgroundColor /\
     glyph = TftPrintln "○").
Proof.
  intros H0. cbv zeta. unfold fps_badge, fps_ge.
  cbn [nth fps_den fps_num].
  split; [reflexivity |].
  destruct (Z.eqb_spec elapsed 0) as [-> | Hnz].
  - cbn. repeat split; lia.
  - destruct (Z.leb_spec (15 * elapsed) (30 * 1000)),
             (Z.leb_spec (10 * elapsed) (30 * 1000));
      repeat split; lia.
Qed.

Lemma fps_badge_tiers_witness :
  nth 9 (fps_badge (mkFps 30000 2000)) FileClose =
    TftSetTextColor uiSuccessColor uiBackgroundColor /\
  nth 9 (fps_badge (mkFps 30000 2001)) FileClose =
    TftSetTextColor TFT_YELLOW uiBackgroundColor /\
  nth 14 (fps_badge (mkFps 30000 3001)) FileClose = TftPrintln "○".
Proof.
  destruct (fps_badge_tiers 2000) as (_ & H1 & _); [lia |].
  destruct (fps_badge_tiers 2001) as (_ & _ & H2 & _); [lia |].
  destruct (fps_badge_tiers 3001) as (_ & _ & _ & H3); [lia |].
  split; [apply H1; lia |]. split; [apply H2; lia | apply H3; lia].
Defined.

(** ** Centering of frames larger than the display *)

(** X8.  For a frame wider than the display the origin is negative and the
    C division rounds towards zero: the origin is minus half the excess,
    rounded down, which is floor((W - w) / 2) for an even excess and one
    more for an odd one. *)
Theorem center_oversize (extent size : Z) :
  in_s16 extent ->
  extent < size <= extent + 2 ^ 16 ->
  center extent size = - ((size - extent) / 2) /\
  center extent size = (extent - size) / 2 + (size - extent) mod 2 /\
  - 2 ^ 15 <= center extent size <= 0.
Proof.
  unfold in_s16, center, s16. intros He Hs.
  assert (Z.quot (extent - size) 2 = - ((size - extent) / 2)) as Hq.
  { replace (extent - size) with (- (size - extent)) by lia.
    rewrite Z.quot_opp_l by lia. rewrite Z.quot_div_nonneg by lia. reflexivity. }
  rewrite Hq.
  assert (0 <= (size - extent) / 2 <= 2 ^ 15) as Hb.
  { split; [apply Z.div_pos; lia |].
    apply Z.div_le_upper_bound; lia. }
  rewrite Z.mod_small by lia.
  pose proof (Z.div_mod (size - extent) 2 ltac:(lia)) as Hdm.
  pose proof (Z.mod_pos_bound (size - extent) 2 ltac:(lia)) as Hm.
  pose proof (Z.div_mod (extent - size) 2 ltac:(lia)) as Hdm'.
  pose proof (Z.mod_pos_bound (extent - size) 2 ltac:(lia)) as Hm'.
  repeat split; lia.
Qed.

Lemma center_oversize_witness :
  center 240 320 = -40 /\ center 240 321 = -40 /\ (240 - 321) / 2 = -41.
Proof.
  destruct (center_oversize 240 320) as (H1 & _); [unfold in_s16; lia | lia |].
  destruct (center_oversize 240 321) as (H2 & _); [unfold in_s16; lia | lia |].
  rewrite H1, H2. repeat split.
Defined.

(** ** Buffered assembly below 2^16 pixels *)

Lemma read_buffered_offsets_witness :
  memcpys (snd (read_buffered (jpeg_mcus Scenario.small) (fun _ => 0) 0)) =
    [(0, 128); (128, 128); (256, 128); (384, 128)].
Proof.
  rewrite (read_buffered_offsets (jpeg_mcus Scenario.small) (fun _ => 0) 0).
  - reflexivity.
  - lia.
  - vm_compute. reflexivity.
Defined.

Lemma total_pixels_nonneg (mcus : list Tile) : 0 <= total_pixels mcus.
Proof.
  induction mcus as [| t rest IH]; cbn; [lia |].
  pose proof (mcuPixels_of_range t). lia.
Qed.

Lemma tile_pixels_length (t : Tile) :
  List.length (tile_pixels t) = Z.to_nat (mcuPixels_of t).
Proof. unfold tile_pixels. rewrite length_map, length_seq. reflexivity. Qed.

Lemma nth_map_seq {A} (f : nat -> A) (n k : nat) (d : A) :
  (k < n)%nat -> nth k (map f (seq 0 n)) d = f k.
Proof.
  intros Hk.
  rewrite (nth_indep _ d (f 0%nat)) by (rewrite length_map, length_seq; exact Hk).
  rewrite (map_nth f), seq_nth by exact Hk. reflexivity.
Qed.

Lemma tile_pixels_nth (t : Tile) (k : nat) :
  (k < Z.to_nat (mcuPixels_of t))%nat ->
  nth k (tile_pixels t) 0 = nth k (pImage t) 0.
Proof.
  intros Hk. unfold tile_pixels.
  exact (nth_map_seq (fun j => nth j (pImage t) 0) _ k 0 Hk).
Qed.

(** X10.  While a stream delivers fewer than 2^16 pixels, the buffer ends
    up holding the MCUs one after the other in the order of delivery: pixel
    [k] of the stream sits at index [bufIndex + k], whatever grid position
    the MCU has, and every index outside the stream's span keeps its old
    content. *)
Theorem read_buffered_content (mcus : list Tile) :
  forall (pBuf : Z -> Z) (bufIndex : Z),
  0 <= bufIndex ->
  bufIndex + total_pixels mcus < 2 ^ 16 ->
  let mem := fst (fst (read_buffered mcus pBuf bufIndex)) in
  (forall k, 0 <= k < total_pixels mcus ->
     mem (bufIndex + k) = nth (Z.to_nat k) (stream_pixels mcus) 0) /\
  (forall i, i < bufIndex \/ bufIndex + total_pixels mcus <= i ->
     mem i = pBuf i).
Proof.
  induction mcus as [| t rest IH]; intros pBuf bufIndex H0 Hsum;
    cbn [read_buffered total_pixels stream_pixels fst snd] in *.
  - split; [intros k Hk; lia | reflexivity].
  - pose proof (mcuPixels_of_range t) as Hn.
    pose proof (total_pixels_nonneg rest) as Hrest.
    unfold store_mcu.
    replace (bufIndex + mcuPixels_of t <=? 320 * 240) with true
      by (symmetry; apply Z.leb_le; lia).
    cbn [fst snd]. unfold u16. rewrite Z.mod_small by lia.
    destruct (IH (memcpy pBuf bufIndex (pImage t) (mcuPixels_of t))
                (bufIndex + mcuPixels_of t)) as [IH1 IH2]; [lia | lia |].
    split.
    + intros k Hk. destruct (Z_lt_le_dec k (mcuPixels_of t)) as [Hlt | Hge].
      * rewrite IH2 by lia. rewrite memcpy_inside by lia.
        rewrite app_nth1 by (rewrite tile_pixels_length; lia).
        rewrite tile_pixels_nth by lia. reflexivity.
      * replace (bufIndex + k)
          with (bufIndex + mcuPixels_of t + (k - mcuPixels_of t)) by lia.
        rewrite IH1 by lia.
        rewrite app_nth2 by (rewrite tile_pixels_length; lia).
        rewrite tile_pixels_length. f_equal. lia.
    + intros i Hi. rewrite IH2 by lia. apply memcpy_outside. lia.
Qed.

Lemma read_buffered_content_witness :
  let mem := fst (fst (read_buffered (jpeg_mcus Scenario.small) (fun _ => 0) 0)) in
  mem 16 = 1 /\ mem 128 = 2 /\ mem 512 = 0.
Proof.
  cbv zeta.
  destruct (read_buffered_content (jpeg_mcus Scenario.small) (fun _ => 0) 0)
    as [H1 H2]; [lia | vm_compute; reflexivity |].
  split; [| split].
  - apply (H1 16). vm_compute. split; [discriminate | reflexivity].
  - apply (H1 128). vm_compute. split; [discriminate | reflexivity].
  - apply (H2 512). right. vm_compute. discriminate.
Defined.

(** X11.  MCUs of at most 11264 pixels (a JPEG MCU has at most 256) are
    never dropped by the overflow test, however many came before: every
    one of them is copied, and the index ends at the delivered pixel count
    modulo 2^16. *)
Theorem read_buffered_never_drops (mcus : list Tile) :
  forall (pBuf : Z -> Z) (bufIndex : Z),
  0 <= bufIndex < 2 ^ 16 ->
  Forall (fun t => mcuPixels_of t <= 11264) mcus ->
  let r := read_buffered mcus pBuf bufIndex in
  List.length (memcpys (snd r)) = List.length mcus /\
  snd (fst r) = u16 (bufIndex + total_pixels mcus).
Proof.
  induction mcus as [| t rest IH]; intros pBuf bufIndex Hb Hsmall;
    cbn [read_buffered total_pixels fst snd List.length].
  - split; [reflexivity |].
    unfold u16. rewrite Z.add_0_r, Z.mod_small by lia. reflexivity.
  - inversion Hsmall as [| t' rest' Ht Hrest]; subst.
    pose proof (mcuPixels_of_range t) as Hn.
    unfold store_mcu.
    replace (bufIndex + mcuPixels_of t <=? 320 * 240) with true
      by (symmetry; apply Z.leb_le; lia).
    cbn [fst snd app memcpys List.length].
    destruct (IH (memcpy pBuf bufIndex (pImage t) (mcuPixels_of t))
                (u16 (bufIndex + mcuPixels_of t)) (u16_range _) Hrest)
      as [IH1 IH2].
    split; [rewrite IH1; reflexivity |].
    rewrite IH2. unfold u16. rewrite Zplus_mod_idemp_l. f_equal. lia.
Qed.

Lemma read_buffered_never_drops_witness :
  List.length
    (memcpys (snd (read_buffered (jpeg_mcus Scenario.qvga) (fun _ => 0) 0))) =
    600%nat /\
  snd (fst (read_buffered (jpeg_mcus Scenario.qvga) (fun _ => 0) 0)) =
    u16 76800.
Proof.
  destruct (read_buffered_never_drops (jpeg_mcus Scenario.qvga) (fun _ => 0) 0)
    as [H1 H2].
  - lia.
  - apply Forall_forall. intros t Ht. unfold Scenario.qvga in Ht.
    cbn [jpeg_mcus] in Ht. apply in_map_iff in Ht.
    destruct Ht as [k [<- _]]. vm_compute. discriminate.
  - split; [rewrite H1; reflexivity | rewrite H2; reflexivity].
Defined.

(** ** Passes of [loop]: what a pass keeps and what it counts *)

Lemma opens_app (a b : list Event) : opens (a ++ b) = (opens a + opens b)%nat.
Proof. unfold opens. rewrite filter_app, length_app. reflexivity. Qed.

Lemma read_buffered_quiet (mcus : list Tile) :
  forall (pBuf : Z -> Z) (bufIndex : Z),
  opens (snd (read_buffered mcus pBuf bufIndex)) = 0%nat.
Proof.
  induction mcus as [| t rest IH]; intros pBuf bufIndex;
    cbn [read_buffered fst snd]; [reflexivity |].
  rewrite opens_app, IH. unfold store_mcu.
  destruct (bufIndex + mcuPixels_of t <=? 320 * 240); reflexivity.
Qed.

Lemma read_direct_quiet (mcus : list Tile) (x y : Z) :
  opens (read_direct mcus x y) = 0%nat /\ memcpys (read_direct mcus x y) = [].
Proof.
  unfold read_direct. induction mcus as [| t rest [IH1 IH2]]; cbn; split;
    trivial.
Qed.

Lemma show_frame_quiet (img : JpegImage) (t1 t2 : Z) (st : State) :
  opens (trace (show_frame img t1 t2 st)) = 0%nat /\
  (bufferReady st = false -> memcpys (trace (show_frame img t1 t2 st)) = []).
Proof.
  rewrite show_frame_trace. cbv zeta. split.
  - rewrite opens_app.
    replace (opens (if 30 <=? u32 (frameCount st + 1)
                    then fps_badge _ else [])) with 0%nat
      by (destruct (30 <=? u32 (frameCount st + 1)); reflexivity).
    destruct (bufferReady st).
    + rewrite opens_app, read_buffered_quiet. reflexivity.
    + rewrite (proj1 (read_direct_quiet _ _ _)). reflexivity.
  - intros ->. rewrite memcpys_app, (proj2 (read_direct_quiet _ _ _)).
    destruct (30 <=? u32 (frameCount st + 1)); reflexivity.
Qed.

(** [show_frame] touches the buffer and the FPS globals only. *)
Lemma show_frame_keeps (img : JpegImage) (t1 t2 : Z) (st : State) :
  let st' := final (show_frame img t1 t2 st) in
  captureRequested st' = captureRequested st /\
  photoCount st' = photoCount st /\
  sensor st' = sensor st /\
  bufferReady st' = bufferReady st /\
  sdCardAvailable st' = sdCardAvailable st /\
  (bufferReady st = false -> displayBuffer st' = displayBuffer st).
Proof.
  cbv zeta. rewrite show_frame_final, fps_tick_final.
  destruct (bufferReady st) eqn:Eb; destruct (30 <=? _); cbn;
    repeat split; try exact Eb;
    try (intros H; (discriminate H || reflexivity)).
Qed.

Lemma capturePhoto_counts (env : CaptureEnv) (st : State) :
  let r := capturePhoto env st in
  let acquired :=
    sdCardAvailable st &&
    match ce_fb env with Some _ => true | None => false end in
  photoCount (final r) =
    (if acquired then s32 (photoCount st + 1) else photoCount st) /\
  opens (trace r) = (if acquired then 1%nat else 0%nat) /\
  memcpys (trace r) = [].
Proof.
  cbv zeta. capture_cases env st; repeat split.
Qed.

(** One pass: whether a capture reached the file is decided by the flag,
    the card and the acquisition; the pass leaves the flag clear. *)
Lemma loop_capture (env : LoopEnv) (st : State) :
  let r := loop env st in
  let captured :=
    captureRequested st && sdCardAvailable st &&
    match ce_fb (le_capture env) with Some _ => true | None => false end in
  photoCount (final r) =
    (if captured then s32 (photoCount st + 1) else photoCount st) /\
  opens (trace r) = (if captured then 1%nat else 0%nat) /\
  captureRequested (final r) = false /\
  sensor (final r) =
    (if captureRequested st && sdCardAvailable st && ce_sensor (le_capture env)
     then mkProfile FRAMESIZE_QVGA 8
     else sensor st) /\
  bufferReady (final r) = bufferReady st /\
  sdCardAvailable (final r) = sdCardAvailable st.
Proof.
  cbv zeta.
  set (c := le_capture env).
  assert (let st1 := final (handle_capture c st) in
          photoCount st1 =
            (if captureRequested st && sdCardAvailable st &&
                match ce_fb c with Some _ => true | None => false end
             then s32 (photoCount st + 1) else photoCount st) /\
          opens (trace (handle_capture c st)) =
            (if captureRequested st && sdCardAvailable st &&
                match ce_fb c with Some _ => true | None => false end
             then 1%nat else 0%nat) /\
          captureRequested st1 = false /\
          sensor st1 =
            (if captureRequested st && sdCardAvailable st && ce_sensor c
             then mkProfile FRAMESIZE_QVGA 8 else sensor st) /\
          bufferReady st1 = bufferReady st /\
          sdCardAvailable st1 = sdCardAvailable st) as Hh.
  { cbv zeta. rewrite handle_capture_final, handle_capture_trace.
    destruct (captureRequested st) eqn:Ereq; [| cbn; repeat split; exact Ereq].
    pose proof (capturePhoto_counts c (set_captureRequested false st)) as Hc.
    pose proof (capturePhoto_frame c (set_captureRequested false st)) as Hf.
    pose proof (capturePhoto_sensor c (set_captureRequested false st)) as Hs.
    cbv zeta in Hc, Hf. cbn in Hc, Hf, Hs |- *.
    destruct Hc as (Hc1 & Hc2 & _).
    destruct Hf as (_ & Hb & _ & _ & _ & Hr & _ & Hsd & _).
    repeat split; assumption. }
  cbv zeta in Hh. destruct Hh as (H1 & H2 & H3 & H4 & H5 & H6).
  rewrite loop_trace, loop_final. cbv zeta. fold c.
  rewrite opens_app, H2.
  destruct (le_fb env) as [fb|].
  - destruct (le_jpeg env) as [img|].
    + pose proof (show_frame_keeps img (le_time1 env) (le_time2 env)
                    (final (handle_capture c st))) as K.
      pose proof (show_frame_quiet img (le_time1 env) (le_time2 env)
                    (final (handle_capture c st))) as Q.
      cbv zeta in K. destruct K as (K1 & K2 & K3 & K4 & K5 & _).
      destruct Q as [Q _].
      change (FbGet (Some fb) :: ?l) with ([FbGet (Some fb)] ++ l).
      rewrite !opens_app, Q, K1, K2, K3, K4, K5.
      cbn [opens filter is_open List.length Nat.add].
      rewrite Nat.add_0_r. repeat split; assumption.
    + cbn [opens filter is_open List.length app].
      rewrite Nat.add_0_r. repeat split; assumption.
  - cbn [opens filter is_open List.length app].
    rewrite Nat.add_0_r. repeat split; assumption.
Qed.

(** X12.  A pass of [loop] always leaves the request flag clear.  A pass
    entered with the flag clear performs no capture: its first call is the
    live-view acquisition, and [photoCount] and the sensor profile stay. *)
Theorem loop_consumes_request (env : LoopEnv) (st : State) :
  captureRequested (final (loop env st)) = false /\
  (captureRequested st = false ->
     hd_error (trace (loop env st)) = Some (FbGet (le_fb env)) /\
     opens (trace (loop env st)) = 0%nat /\
     photoCount (final (loop env st)) = photoCount st /\
     sensor (final (loop env st)) = sensor st).
Proof.
  pose proof (loop_capture env st) as H. cbv zeta in H.
  destruct H as (H1 & H2 & H3 & H4 & _).
  split; [exact H3 |].
  intros Hreq. rewrite Hreq in *. cbn in H1, H2, H4.
  repeat split; try assumption.
  rewrite loop_trace, handle_capture_trace, Hreq. reflexivity.
Qed.

Lemma loop_consumes_request_witness :
  opens (trace (loop (Scenario.pass Scenario.small) Scenario.ready)) = 0%nat /\
  photoCount (final (loop (Scenario.pass Scenario.small) Scenario.ready)) = 0.
Proof.
  destruct (loop_consumes_request (Scenario.pass Scenario.small) Scenario.ready)
    as [_ H].
  destruct (H eq_refl) as (_ & H1 & H2 & _).
  split; [exact H1 | exact H2].
Defined.

(** X13.  Along any run, as long as [photoCount] cannot overflow,
    [photoCount] grows by exactly the number of [SD.open] calls of the run,
    and there is at most one such call per pass of [loop], however many
    presses were accepted in between. *)
Theorem photoCount_counts_captures (inputs : list Input) :
  forall st : State,
  - 2 ^ 31 <= photoCount st ->
  photoCount st + Z.of_nat (loop_passes inputs) < 2 ^ 31 ->
  let r := run inputs st in
  photoCount (final r) = photoCount st + Z.of_nat (opens (trace r)) /\
  (opens (trace r) <= loop_passes inputs)%nat.
Proof.
  induction inputs as [| i rest IH]; intros st Hlo Hhi.
  - cbn. split; [lia | lia].
  - cbv zeta. destruct (run_cons i rest st) as [-> ->].
    rewrite opens_app.
    destruct i as [t | env]; cbn [step loop_passes] in *.
    + rewrite buttonPressed_trace.
      assert (photoCount (final (buttonPressed t st)) = photoCount st) as E.
      { rewrite buttonPressed_final.
        destruct (debounce_elapsed st (millis t)); reflexivity. }
      destruct (IH (final (buttonPressed t st))) as [I1 I2];
        [rewrite E; lia | rewrite E; lia |].
      cbn [opens filter List.length Nat.add]. rewrite I1, E. split; lia.
    + pose proof (loop_capture env st) as H. cbv zeta in H.
      destruct H as (H1 & H2 & _).
      destruct (captureRequested st && sdCardAvailable st &&
                match ce_fb (le_capture env) with
                | Some _ => true | None => false end).
      * rewrite s32_small in H1 by lia.
        destruct (IH (final (loop env st))) as [I1 I2];
          [rewrite H1; lia | rewrite H1; lia |].
        rewrite I1, H1, H2. split; lia.
      * destruct (IH (final (loop env st))) as [I1 I2];
          [rewrite H1; lia | rewrite H1; lia |].
        rewrite I1, H1, H2. split; lia.
Qed.

Lemma photoCount_counts_captures_witness :
  photoCount
    (final (run [Button 3000; Button 3500; LoopPass (Scenario.pass Scenario.small);
                 LoopPass (Scenario.pass Scenario.small)] Scenario.ready)) = 1.
Proof.
  destruct (photoCount_counts_captures
              [Button 3000; Button 3500; LoopPass (Scenario.pass Scenario.small);
               LoopPass (Scenario.pass Scenario.small)] Scenario.ready)
    as [H _].
  - vm_compute. discriminate.
  - vm_compute. reflexivity.
  - rewrite H. reflexivity.
Defined.

(** X14.  Along any run that starts with the sensor at QVGA, the frame size
    is QVGA after every step, and the profile is either the one the run
    started with or QVGA at quality 8. *)
Theorem sensor_profile_along_runs (inputs : list Input) :
  forall st : State,
  prof_framesize (sensor st) = FRAMESIZE_QVGA ->
  let st' := final (run inputs st) in
  prof_framesize (sensor st') = FRAMESIZE_QVGA /\
  (sensor st' = sensor st \/ sensor st' = mkProfile FRAMESIZE_QVGA 8).
Proof.
  induction inputs as [| i rest IH]; intros st Hq; cbv zeta.
  - split; [exact Hq | left; reflexivity].
  - rewrite (proj2 (run_cons i rest st)).
    assert (sensor (final (step i st)) = sensor st \/
            sensor (final (step i st)) = mkProfile FRAMESIZE_QVGA 8) as Hstep.
    { destruct i as [t | env]; cbn [step].
      - left. rewrite buttonPressed_final.
        destruct (debounce_elapsed st (millis t)); reflexivity.
      - pose proof (loop_capture env st) as H. cbv zeta in H.
        destruct H as (_ & _ & _ & H & _). rewrite H.
        destruct (captureRequested st && sdCardAvailable st &&
                  ce_sensor (le_capture env)); [right | left]; reflexivity. }
    destruct (IH (final (step i st))) as [I1 I2].
    + destruct Hstep as [-> | ->]; [exact Hq | reflexivity].
    + split; [exact I1 |].
      destruct I2 as [-> | ->]; [exact Hstep | right; reflexivity].
Qed.

Lemma sensor_profile_along_runs_witness :
  prof_framesize
    (sensor (final (run [Button 3000; LoopPass (Scenario.pass Scenario.small)]
                      Scenario.ready))) = FRAMESIZE_QVGA.
Proof.
  apply (sensor_profile_along_runs
           [Button 3000; LoopPass (Scenario.pass Scenario.small)]
           Scenario.ready).
  reflexivity.
Defined.

(** X15.  A pass without a pending request that gets no frame does nothing
    but the acquisition; one whose frame fails to decode returns the frame
    and does nothing else.  In both cases no global changes and nothing is
    drawn. *)
Theorem loop_skips (env : LoopEnv) (st : State) :
  captureRequested st = false ->
  (le_fb env = None -> loop env st = (tt, st, [FbGet None])) /\
  (forall fb : camera_fb,
     le_fb env = Some fb -> le_jpeg env = None ->
     loop env st = (tt, st, [FbGet (Some fb); FbReturn fb])).
Proof.
  intros Hreq.
  pose proof (loop_final env st) as F. pose proof (loop_trace env st) as T.
  cbv zeta in F, T.
  rewrite handle_capture_final, Hreq in F.
  rewrite handle_capture_trace, Hreq in T. cbn [app] in T.
  destruct (loop env st) as [[[] st'] tr]. cbn [final trace fst snd] in F, T.
  split.
  - intros Efb. rewrite Efb in F, T. subst. reflexivity.
  - intros fb Efb Ejp. rewrite Efb, Ejp in F, T. subst. reflexivity.
Qed.

Lemma loop_skips_witness :
  loop (mkLoopEnv Scenario.capture_ok (Some Scenario.frame) None 4500 4510)
       Scenario.ready =
    (tt, Scenario.ready, [FbGet (Some Scenario.frame); FbReturn Scenario.frame]).
Proof.
  apply (loop_skips
           (mkLoopEnv Scenario.capture_ok (Some Scenario.frame) None 4500 4510)
           Scenario.ready eq_refl); reflexivity.
Defined.

(** ** The direct rendering fallback *)

Lemma loop_direct (env : LoopEnv) (st : State) :
  bufferReady st = false ->
  memcpys (trace (loop env st)) = [] /\
  displayBuffer (final (loop env st)) = displayBuffer st /\
  bufferReady (final (loop env st)) = false.
Proof.
  intros Hb.
  pose proof (handle_capture_frame (le_capture env) st) as H.
  cbv zeta in H. destruct H as (Hd & Hb1 & _).
  rewrite Hb in Hb1.
  assert (memcpys (trace (handle_capture (le_capture env) st)) = []) as Hm.
  { rewrite handle_capture_trace. destruct (captureRequested st); [| reflexivity].
    apply capturePhoto_counts. }
  rewrite loop_trace, loop_final. cbv zeta.
  rewrite memcpys_app, Hm. cbn [app memcpys].
  destruct (le_fb env) as [fb|]; [| repeat split; assumption].
  destruct (le_jpeg env) as [img|]; [| repeat split; assumption].
  pose proof (show_frame_keeps img (le_time1 env) (le_time2 env)
                (final (handle_capture (le_capture env) st))) as K.
  pose proof (show_frame_quiet img (le_time1 env) (le_time2 env)
                (final (handle_capture (le_capture env) st))) as [_ Q].
  cbv zeta in K. destruct K as (_ & _ & _ & K4 & _ & K6).
  rewrite memcpys_app, (Q Hb1), K4, (K6 Hb1). repeat split; assumption.
Qed.

(** X16.  When the display buffer could not be allocated, no run ever
    copies into it: the trace has no [memcpy], the pixel memory is the one
    the run started with, and [bufferReady] stays false. *)
Theorem direct_path_leaves_buffer (inputs : list Input) :
  forall st : State,
  bufferReady st = false ->
  let r := run inputs st in
  memcpys (trace r) = [] /\
  displayBuffer (final r) = displayBuffer st /\
  bufferReady (final r) = false.
Proof.
  induction inputs as [| i rest IH]; intros st Hb; cbv zeta.
  - repeat split. exact Hb.
  - destruct (run_cons i rest st) as [-> ->]. rewrite memcpys_app.
    assert (memcpys (trace (step i st)) = [] /\
            displayBuffer (final (step i st)) = displayBuffer st /\
            bufferReady (final (step i st)) = false) as (S1 & S2 & S3).
    { destruct i as [t | env]; cbn [step]; [| apply loop_direct; exact Hb].
      rewrite buttonPressed_trace, buttonPressed_final.
      destruct (debounce_elapsed st (millis t)); repeat split; exact Hb. }
    destruct (IH (final (step i st)) S3) as (I1 & I2 & I3).
    rewrite S1, I1, I2, S2. repeat split. exact I3.
Qed.

Lemma direct_path_leaves_buffer_witness :
  memcpys (trace (run [LoopPass (Scenario.pass Scenario.small)]
                    (set_bufferReady false Scenario.ready))) = [].
Proof.
  apply (direct_path_leaves_buffer [LoopPass (Scenario.pass Scenario.small)]
           (set_bufferReady false Scenario.ready)).
  reflexivity.
Defined.

(** X17.  On the direct path, for a frame that fits the display, every MCU
    whose origin lies inside the frame is pushed with its own size and
    pixels at the centring origin plus its grid position times its size,
    and that position lies on the display. *)
Theorem direct_tiles_on_display
    (env : LoopEnv) (st : State) (fb : camera_fb) (img : JpegImage) (t : Tile) :
  le_fb env = Some fb ->
  le_jpeg env = Some img ->
  bufferReady st = false ->
  in_s16 (tft_width st) ->
  in_s16 (tft_height st) ->
  u16 (jpeg_width img) <= tft_width st ->
  u16 (jpeg_height img) <= tft_height st ->
  In t (jpeg_mcus img) ->
  0 <= MCUx t * MCUWidth t < u16 (jpeg_width img) ->
  0 <= MCUy t * MCUHeight t < u16 (jpeg_height img) ->
  let px := (tft_width st - u16 (jpeg_width img)) / 2 + MCUx t * MCUWidth t in
  let py := (tft_height st - u16 (jpeg_height img)) / 2 + MCUy t * MCUHeight t in
  In (TftPushImage px py (MCUWidth t) (MCUHeight t) (SrcMCU (pImage t)))
     (pushes (trace (loop env st))) /\
  0 <= px < tft_width st /\
  0 <= py < tft_height st.
Proof.
  intros Efb Ejp Hb HW HH Hw Hh Hin Hx Hy. cbv zeta.
  pose proof (u16_range (jpeg_width img)) as Rw.
  pose proof (u16_range (jpeg_height img)) as Rh.
  destruct (center_floor (tft_width st) (u16 (jpeg_width img)) HW) as [Ex Bx];
    [lia |].
  destruct (center_floor (tft_height st) (u16 (jpeg_height img)) HH) as [Ey By];
    [lia |].
  unfold in_s16 in HW, HH.
  pose proof (Z.div_mod (tft_width st - u16 (jpeg_width img)) 2 ltac:(lia)) as Dx.
  pose proof (Z.mod_pos_bound (tft_width st - u16 (jpeg_width img)) 2 ltac:(lia)).
  pose proof (Z.div_mod (tft_height st - u16 (jpeg_height img)) 2 ltac:(lia)) as Dy.
  pose proof (Z.mod_pos_bound (tft_height st - u16 (jpeg_height img)) 2 ltac:(lia)).
  split; [| split; lia].
  rewrite (loop_pushes env st fb img Efb Ejp). cbv zeta.
  rewrite Hb, Ex, Ey. apply in_map_iff. exists t. split; [| exact Hin].
  unfold push_mcu.
  rewrite (s32_small (MCUx t * MCUWidth t)) by lia.
  rewrite (s32_small (MCUy t * MCUHeight t)) by lia.
  rewrite !s32_small by lia.
  f_equal; lia.
Qed.

Lemma direct_tiles_on_display_witness :
  In (TftPushImage 160 120 16 8 (SrcMCU (repeat 4 128)))
     (pushes (trace (loop (Scenario.pass Scenario.small)
                       (set_bufferReady false Scenario.ready)))).
Proof.
  apply (direct_tiles_on_display (Scenario.pass Scenario.small)
           (set_bufferReady false Scenario.ready) Scenario.frame Scenario.small
           (mkTile 1 1 16 8 (repeat 4 128)));
    try reflexivity;
    try (vm_compute; split; [discriminate | reflexivity]);
    try (vm_compute; discriminate).
  cbn. tauto.
Defined.

(** ** What [setup] establishes *)

Lemma setup_globals (senv : SetupEnv) (st0 : State) :
  setup senv = Some st0 ->
  captureRequested st0 = false /\
  photoCount st0 = 0 /\
  frameCount st0 = 0 /\
  lastButtonPress st0 = 0 /\
  fpsTimer st0 = millis (se_time senv) /\
  sdCardAvailable st0 = se_sd_begin senv /\
  bufferReady st0 = se_malloc senv /\
  sensor st0 = mkProfile FRAMESIZE_QVGA (if se_sensor senv then 6 else 8).
Proof.
  unfold setup. destruct (se_camera_init senv); [| discriminate].
  cbn [negb]. intros [= <-].
  destruct (se_sd_begin senv), (se_sensor senv), (se_malloc senv);
    repeat split.
Qed.

(** X18.  [setup] halts exactly when the camera fails to initialise.
    Otherwise it leaves no request pending, the counters at 0, the card and
    buffer flags as [SD.begin] and [malloc] answered, and the sensor at QVGA
    with quality 6 when a sensor handle is there (quality 8 of the camera
    configuration when not); and since the recorded press time starts at 0,
    a press in the first 200 ms after boot is ignored. *)
Theorem setup_establishes (senv : SetupEnv) :
  (setup senv = None <-> se_camera_init senv = false) /\
  (forall st0 : State,
     setup senv = Some st0 ->
     captureRequested st0 = false /\
     photoCount st0 = 0 /\
     frameCount st0 = 0 /\
     lastButtonPress st0 = 0 /\
     fpsTimer st0 = millis (se_time senv) /\
     sdCardAvailable st0 = se_sd_begin senv /\
     bufferReady st0 = se_malloc senv /\
     sensor st0 =
       mkProfile FRAMESIZE_QVGA (if se_sensor senv then 6 else 8) /\
     (forall t, 0 <= t <= 200 -> final (buttonPressed t st0) = st0)).
Proof.
  split.
  - unfold setup. destruct (se_camera_init senv); cbn [negb];
      split; (discriminate || reflexivity).
  - intros st0 Hs.
    destruct (setup_globals senv st0 Hs)
      as (H1 & H2 & H3 & H4 & H5 & H6 & H7 & H8).
    repeat (split; [assumption |]).
    intros t Ht. rewrite buttonPressed_final.
    unfold debounce_elapsed, debounceDelay, millis, u32.
    rewrite H4, Z.sub_0_r, Z.mod_mod, Z.mod_small by lia.
    replace (200 <? t) with false by (symmetry; apply Z.ltb_ge; lia).
    reflexivity.
Qed.

Lemma setup_establishes_witness :
  sensor Scenario.ready = mkProfile FRAMESIZE_QVGA 6 /\
  final (buttonPressed 150 Scenario.ready) = Scenario.ready.
Proof.
  destruct (setup_establishes Scenario.boot) as [_ H].
  destruct (H Scenario.ready eq_refl) as (_ & _ & _ & _ & _ & _ & _ & H1 & H2).
  split; [exact H1 | apply H2; lia].
Defined.

(** ** The FPS window along a run *)

(** X19.  Along any run from a state whose counter is in 0..29, one sample
    is printed for every 30 decoded frames and none otherwise: with [d]
    frames decoded during the run, the run prints (counter + d) / 30
    samples and leaves the counter at (counter + d) mod 30. *)
Theorem fps_one_sample_per_30_frames (inputs : list Input) :
  forall st : State,
  0 <= frameCount st < 30 ->
  let r := run inputs st in
  let d := Z.of_nat (decoded_passes inputs) in
  Z.of_nat (List.length (fps_samples (trace r))) = (frameCount st + d) / 30 /\
  frameCount (final r) = (frameCount st + d) mod 30.
Proof.
  induction inputs as [| i rest IH]; intros st Hc; cbv zeta.
  - cbn. rewrite Z.add_0_r, Z.div_small, Z.mod_small by lia. split; reflexivity.
  - destruct (run_cons i rest st) as [-> ->].
    rewrite fps_samples_app, length_app, Nat2Z.inj_add.
    pose proof (step_frameCount i st Hc) as Hc'.
    destruct (IH (final (step i st)) Hc') as [I1 I2]. rewrite I1, I2.
    destruct i as [t | env]; cbn [step decoded_passes] in *.
    + rewrite buttonPressed_trace, buttonPressed_final.
      destruct (debounce_elapsed st (millis t)); cbn; split; reflexivity.
    + pose proof (loop_fps_idle env st) as Hidle.
      destruct (le_fb env) as [fb|] eqn:Efb, (le_jpeg env) as [img|] eqn:Ejp;
        try (cbv zeta in Hidle; destruct Hidle as (-> & _ & -> & _);
             cbn; split; reflexivity).
      pose proof (loop_fps_frame env st fb img Efb Ejp Hc) as H.
      cbv zeta in H. rewrite Nat2Z.inj_succ.
      set (d := Z.of_nat (decoded_passes rest)) in *.
      assert (0 <= d) as Hd by (subst d; lia).
      destruct (Z.eqb_spec (frameCount st + 1) 30) as [E | E];
        destruct H as (-> & _ & -> & _); cbn [List.length Z.of_nat].
      * replace (frameCount st + Z.succ d) with (d + 1 * 30) by lia.
        rewrite Z.div_add, Z_mod_plus_full by lia.
        rewrite Z.add_0_l. split; [lia | reflexivity].
      * replace (frameCount st + 1 + d) with (frameCount st + Z.succ d) by lia.
        split; [lia | reflexivity].
Qed.

Lemma fps_one_sample_per_30_frames_witness :
  List.length
    (fps_samples
       (trace (run (repeat (LoopPass (Scenario.pass Scenario.small)) 65)
                 Scenario.ready))) = 2%nat /\
  frameCount
    (final (run (repeat (LoopPass (Scenario.pass Scenario.small)) 65)
              Scenario.ready)) = 5.
Proof.
  destruct (fps_one_sample_per_30_frames
              (repeat (LoopPass (Scenario.pass Scenario.small)) 65)
              Scenario.ready) as [H1 H2].
  - vm_compute. split; [discriminate | reflexivity].
  - split; [apply Nat2Z.inj; rewrite H1 | rewrite H2]; reflexivity.
Defined.

(** ** From the press to the capture *)

(** X20.  An accepted press is served by the next pass of [loop]: the pass
    runs [capturePhoto] once, which opens one file and counts one photo when
    the card is present and a frame is acquired, and leaves the flag
    clear, so the pass after it performs no capture. *)
Theorem press_served_by_next_pass
    (st : State) (t : Z) (env env' : LoopEnv) :
  debounce_elapsed st (millis t) = true ->
  let captured :=
    sdCardAvailable st &&
    match ce_fb (le_capture env) with Some _ => true | None => false end in
  let r1 := run [Button t; LoopPass env] st in
  let r2 := loop env' (final r1) in
  opens (trace r1) = (if captured then 1%nat else 0%nat) /\
  photoCount (final r1) =
    (if captured then s32 (photoCount st + 1) else photoCount st) /\
  captureRequested (final r1) = false /\
  opens (trace r2) = 0%nat /\
  photoCount (final r2) = photoCount (final r1).
Proof.
  intros Hacc. cbv zeta.
  destruct (run_cons (Button t) [LoopPass env] st) as [T F].
  rewrite T, F. clear T F. cbn [step].
  destruct (run_cons (LoopPass env) [] (final (buttonPressed t st))) as [T F].
  rewrite T, F. clear T F. cbn [step run ret final trace fst snd].
  rewrite buttonPressed_trace, buttonPressed_final, Hacc, app_nil_r.
  cbn [app].
  set (st1 := set_lastButtonPress (millis t) (set_captureRequested true st)).
  pose proof (loop_capture env st1) as H. cbv zeta in H.
  destruct H as (H1 & H2 & H3 & _).
  pose proof (loop_capture env' (final (loop env st1))) as G. cbv zeta in G.
  destruct G as (G1 & G2 & _).
  rewrite H3 in G1, G2. cbn in G1, G2.
  subst st1. cbn in H1, H2.
  repeat split; assumption.
Qed.

Lemma press_served_by_next_pass_witness :
  opens (trace (run [Button 3000; LoopPass (Scenario.pass Scenario.small)]
                  Scenario.ready)) = 1%nat.
Proof.
  apply (press_served_by_next_pass Scenario.ready 3000
           (Scenario.pass Scenario.small) (Scenario.pass Scenario.small)).
  reflexivity.
Defined.
